(** * s3gof3r: streaming S3 client -- bucket, endpoint and credential layer

    A shallow embedding of [bucket.go], [auth.go], [s3gof3r.go] and the
    accelerated endpoint, with the pieces of the Go standard library they
    call, and the properties of the specification that concern them. *)

From Stdlib Require Import ZArith NArith Lia Ascii.
From stdpp Require Import base option list strings gmap sorting.

Local Open Scope Z_scope.

(** ** Go standard library: [strings], [path], [fmt] *)

Module strings.

(** [strings.Contains(s, substr)]. *)
Fixpoint Contains (s substr : string) : bool :=
  String.prefix substr s ||
  match s with
  | EmptyString => false
  | String _ s' => Contains s' substr
  end.

(** [strings.Split(s, sep)] for a separator of one byte, which is how the
    library calls it.  An input without the separator yields the input
    alone, and the result is never empty. *)
Fixpoint Split (s : string) (sep : ascii) : list string :=
  match s with
  | EmptyString => [EmptyString]
  | String c s' =>
      if decide (c = sep) then EmptyString :: Split s' sep
      else match Split s' sep with
           | x :: xs => String c x :: xs
           | [] => [String c EmptyString]
           end
  end.

(** [strings.Join(elems, sep)]. *)
Fixpoint Join (elems : list string) (sep : string) : string :=
  match elems with
  | [] => ""
  | [x] => x
  | x :: xs => x +:+ sep +:+ Join xs sep
  end.

(** Bytes of a string, and back. *)
Fixpoint bytes (s : string) : list ascii :=
  match s with
  | EmptyString => []
  | String c s' => c :: bytes s'
  end.

Fixpoint of_bytes (l : list ascii) : string :=
  match l with
  | [] => EmptyString
  | c :: l' => String c (of_bytes l')
  end.

End strings.

Module path.

(** One step of [path.Clean] on a path element.  [out] holds the elements
    written so far, last one first; [dotdot] counts the leading [..]
    elements of a relative path, which no later [..] can remove. *)
Definition step (rooted : bool) (st : list string * nat) (elem : string)
  : list string * nat :=
  let '(out, dotdot) := st in
  if decide (elem = "") then st
  else if decide (elem = ".") then st
  else if decide (elem = "..") then
    if bool_decide (dotdot < length out)%nat then (tail out, dotdot)
    else if rooted then st
    else (".." :: out, S dotdot)
  else (elem :: out, dotdot).

(** [path.Clean(path)]: the shortest path name equivalent to [path] by
    purely lexical processing. *)
Definition Clean (p : string) : string :=
  match p with
  | EmptyString => "."
  | String c _ =>
      let rooted := bool_decide (c = "/"%char) in
      let '(out, _) := fold_left (step rooted) (strings.Split p "/") ([], 0%nat) in
      if rooted then "/" +:+ strings.Join (rev out) "/"
      else match out with
           | [] => "."
           | _ => strings.Join (rev out) "/"
           end
  end.

End path.

(** ** Go standard library: [net/url] *)

Module url.

(** [url.URL].  [User] is left out: nothing in the library sets it. *)
Record URL := mkURL {
  Scheme : string;
  Opaque : string;
  Host : string;
  Path : string;
  RawPath : string;
  ForceQuery : bool;
  RawQuery : string;
  Fragment : string;
}.

(** [url.Values] is [map[string][]string]; the nil map reads as the
    empty one. *)
Abbreviation Values := (gmap string (list string)).

(** [Values.Get]: the first value of the key, or the empty string. *)
Definition Get (v : Values) (key : string) : string :=
  match v !! key with
  | Some (x :: _) => x
  | _ => ""
  end.

(** [Values.Add]: append the value to the key's list. *)
Definition Add (v : Values) (key value : string) : Values :=
  <[key := default [] (v !! key) ++ [value]]> v.

Definition hexdigit (n : N) : ascii :=
  match n with
  | 0 => "0" | 1 => "1" | 2 => "2" | 3 => "3" | 4 => "4" | 5 => "5"
  | 6 => "6" | 7 => "7" | 8 => "8" | 9 => "9" | 10 => "A" | 11 => "B"
  | 12 => "C" | 13 => "D" | 14 => "E" | _ => "F"
  end%N%char.

Definition in_range (lo hi c : ascii) : bool :=
  (N_of_ascii lo <=? N_of_ascii c)%N && (N_of_ascii c <=? N_of_ascii hi)%N.

(** The unreserved characters of RFC 3986, the only ones
    [shouldEscape] lets through in a query component. *)
Definition unreserved (c : ascii) : bool :=
  in_range "a" "z" c || in_range "A" "Z" c || in_range "0" "9" c
  || bool_decide (c = "-"%char) || bool_decide (c = "_"%char)
  || bool_decide (c = "."%char) || bool_decide (c = "~"%char).

(** [url.QueryEscape]. *)
Fixpoint QueryEscape (s : string) : string :=
  match s with
  | EmptyString => EmptyString
  | String c s' =>
      if unreserved c then String c (QueryEscape s')
      else if decide (c = " "%char) then String "+" (QueryEscape s')
      else String "%" (String (hexdigit (N_of_ascii c / 16))
                         (String (hexdigit (N_of_ascii c mod 16)) (QueryEscape s')))
  end.

(** What [QueryEscape] writes for one byte, and the bytes it can write:
    unreserved ones, [+] and [%]. *)
Definition escape_byte (c : ascii) : string := QueryEscape (String c EmptyString).

Definition escaped_byte (c : ascii) : bool :=
  unreserved c || bool_decide (c = "+"%char) || bool_decide (c = "%"%char).

(** [Values.Encode]: [key=value] pairs joined by [&], keys sorted. *)
Definition Encode (v : Values) : string :=
  let keys := merge_sort String.le (fst <$> map_to_list v) in
  strings.Join
    (k ← keys; (fun x => QueryEscape k +:+ "=" +:+ QueryEscape x) <$> default [] (v !! k))
    "&".

End url.

Abbreviation URL := url.URL.

(** ** Go standard library: [regexp] *)

Module regexp.

(** Syntax of the expressions the library compiles.  Groups carry their
    index, counted by opening parenthesis. *)
Inductive Regexp :=
| Lit (c : ascii)
| AnyCharNotNL
| CharClass (member : ascii -> bool)
| Concat (r1 r2 : Regexp)
| Star (r : Regexp)
| Capture (i : nat) (r : Regexp).

Definition Plus (r : Regexp) : Regexp := Concat r (Star r).

Fixpoint Literal (s : string) : Regexp :=
  match s with
  | EmptyString => Star (CharClass (fun _ => false))
  | String c EmptyString => Lit c
  | String c s' => Concat (Lit c) (Literal s')
  end.

Definition continuation (c : ascii) : bool := url.in_range "128" "191" c.

(** Width in bytes of the first UTF-8 sequence of the input, as
    [utf8.DecodeRuneInString] reports it: an invalid or truncated
    sequence counts as one byte.  The matcher steps over input by rune. *)
Definition rune_width (s : list ascii) : nat :=
  match s with
  | [] => 0
  | b0 :: t =>
      if url.in_range "194" "223" b0 then
        match t with
        | b1 :: _ => if continuation b1 then 2 else 1
        | _ => 1
        end
      else if url.in_range "224" "239" b0 then
        match t with
        | b1 :: b2 :: _ =>
            let ok1 :=
              if decide (b0 = "224"%char) then url.in_range "160" "191" b1
              else if decide (b0 = "237"%char) then url.in_range "128" "159" b1
              else continuation b1 in
            if ok1 && continuation b2 then 3 else 1
        | _ => 1
        end
      else if url.in_range "240" "244" b0 then
        match t with
        | b1 :: b2 :: b3 :: _ =>
            let ok1 :=
              if decide (b0 = "240"%char) then url.in_range "144" "191" b1
              else if decide (b0 = "244"%char) then url.in_range "128" "143" b1
              else continuation b1 in
            if ok1 && continuation b2 && continuation b3 then 4 else 1
        | _ => 1
        end
      else 1
  end%nat.

Abbreviation Captures := (gmap nat string).

(** The text consumed between two suffixes of the same input. *)
Definition consumed (before after : list ascii) : string :=
  strings.of_bytes (take (length before - length after) before).

(** Backtracking matcher in continuation-passing style: alternatives are
    tried in the order of preference of the leftmost-first semantics
    (greedy repetition first), and [k] receives the rest of the input. *)
Fixpoint run {R} (r : Regexp) (s : list ascii) (caps : Captures)
    (k : list ascii -> Captures -> option R) : option R :=
  match r with
  | Lit c =>
      match s with
      | x :: s' => if decide (x = c) then k s' caps else None
      | [] => None
      end
  | AnyCharNotNL =>
      match s with
      | x :: _ => if decide (x = "010"%char) then None else k (drop (rune_width s) s) caps
      | [] => None
      end
  | CharClass member =>
      match s with
      | x :: s' => if member x then k s' caps else None
      | [] => None
      end
  | Concat r1 r2 => run r1 s caps (fun s' caps' => run r2 s' caps' k)
  | Star r1 =>
      (fix loop (fuel : nat) (s : list ascii) (caps : Captures) : option R :=
         match fuel with
         | O => k s caps
         | S fuel' =>
             match run r1 s caps (fun s' caps' =>
                     if bool_decide (length s' < length s)%nat
                     then loop fuel' s' caps' else None) with
             | Some x => Some x
             | None => k s caps
             end
         end) (length s) s caps
  | Capture i r1 =>
      run r1 s caps (fun s' caps' => k s' (<[i := consumed s s']> caps'))
  end.

(** Leftmost match: the first start position at which [run] succeeds. *)
Fixpoint search (r : Regexp) (ngroups : nat) (s : list ascii) : list string :=
  match run r s ∅ (fun s' caps => Some (s', caps)) with
  | Some (s', caps) =>
      consumed s s' :: ((fun i => default "" (caps !! i)) <$> seq 1 ngroups)
  | None =>
      match s with
      | [] => []
      | _ :: t => search r ngroups t
      end
  end.

(** [Regexp.FindStringSubmatch]: the match and its groups, or nil. *)
Definition FindStringSubmatch (r : Regexp) (ngroups : nat) (s : string) : list string :=
  search r ngroups (strings.bytes s).

End regexp.

(** ** Go standard library: [net/http] data *)

Module http.

(** [http.Header] is [map[string][]string]; a nil header is [None] where
    the distinction matters. *)
Abbreviation Header := (gmap string (list string)).

Definition token_byte (c : ascii) : bool :=
  url.in_range "a" "z" c || url.in_range "A" "Z" c || url.in_range "0" "9" c
  || bool_decide (c ∈ strings.bytes "!#$%&'*+-.^_`|~").

Definition upper (c : ascii) : ascii :=
  if url.in_range "a" "z" c then ascii_of_N (N_of_ascii c - 32) else c.
Definition lower (c : ascii) : ascii :=
  if url.in_range "A" "Z" c then ascii_of_N (N_of_ascii c + 32) else c.

Fixpoint canonical (up : bool) (s : string) : string :=
  match s with
  | EmptyString => EmptyString
  | String c s' =>
      String (if up then upper c else lower c) (canonical (bool_decide (c = "-"%char)) s')
  end.

(** [textproto.CanonicalMIMEHeaderKey]: [user-agent] becomes [User-Agent];
    a key with a byte that is not allowed in a field name is left as is. *)
Definition CanonicalMIMEHeaderKey (s : string) : string :=
  if forallb token_byte (strings.bytes s) then canonical true s else s.

(** [Header.Set]: replace whatever the key held by the single value. *)
Definition Set_ (h : Header) (key value : string) : Header :=
  <[CanonicalMIMEHeaderKey key := [value]]> h.

(** [http.Request], with the fields the library reads or writes.  [URL]
    is a pointer and [Header] a map, both possibly nil. *)
Record Request := mkRequest {
  Method : string;
  URL : option url.URL;
  Header_ : option Header;
  Body : option string;
  ContentLength : Z;
  Host : string;
}.

Record Response := mkResponse {
  StatusCode : Z;
  RespHeader : Header;
  RespBody : string;
}.

End http.

Abbreviation Request := http.Request.
Abbreviation Response := http.Response.

(** ** Errors, the world the library runs in, and computations *)

(** Go [error] values; [None] is the nil error. *)
Inductive GoError :=
| errorString (text : string)
| urlError (op target text : string)
| netError (text : string)
| respError (status : Z) (text : string)
| otherError (kind text : string).

Abbreviation error := (option GoError).

Definition errors_New (text : string) : GoError := errorString text.
Definition fmt_Errorf (text : string) : GoError := errorString text.

(** Credentials.  The fields are unexported; the three accessors below are
    the only way other packages have to them. *)
Record Keys := mkKeys {
  accessKeyID : string;
  secretAccessKey : string;
  sessionToken : string;
}.

(** Addresses of [Keys] objects: every [S3] that uses a set of credentials
    holds a pointer to it. *)
Abbreviation loc := positive.

Record World := mkWorld {
  environ : string -> string;        (* [os.Getenv]: an unset variable reads as the empty string *)
  clock : Z;                         (* [time.Now] *)
  keys_heap : gmap loc Keys;         (* the [Keys] objects allocated so far *)
  sent : list Request;               (* requests handed to an HTTP client, oldest first *)
  log_out : list string;             (* what went to the package logger *)
}.

Inductive Outcome (A : Type) :=
| Ret (a : A)
| Panic (msg : string).
Arguments Ret {A} a.
Arguments Panic {A} msg.

(** A computation reads and changes the world and either returns or
    panics; after a panic the world is the one reached at that point. *)
Definition M (A : Type) : Type := World -> Outcome A * World.

Definition ret {A} (a : A) : M A := fun w => (Ret a, w).
Definition panic {A} (msg : string) : M A := fun w => (Panic msg, w).
Definition bind {A B} (m : M A) (f : A -> M B) : M B :=
  fun w => match m w with
           | (Ret a, w') => f a w'
           | (Panic msg, w') => (Panic msg, w')
           end.

Notation "'let!' x ':=' m 'in' k" := (bind m (fun x => k))
  (at level 10, x pattern, m at level 100, k at level 200).

(** A computation that leaves the [Keys] objects as they are, whether it
    returns or panics. *)
Definition keeps_keys {A} (m : M A) : Prop :=
  forall w, keys_heap (m w).2 = keys_heap w.

Definition nil_deref : string := "invalid memory address or nil pointer dereference".

Definition os_Getenv (name : string) : M string :=
  fun w => (Ret (environ w name), w).

Definition time_Now : M Z := fun w => (Ret (clock w), w).

(** [logger.Printf]. *)
Definition logger_Printf (line : string) : M unit :=
  fun w => (Ret tt, mkWorld (environ w) (clock w) (keys_heap w) (sent w) (log_out w ++ [line])).

(** What the library uses of [net/url] and [net/http]: the URL parser with
    its query decoding, and HTTP clients.  A client answers a request given
    the requests dispatched before it. *)
Class GoEnv := {
  url_Parse : string -> url.URL + GoError;
  URL_Query : url.URL -> url.Values;
  Client : Type;
  Client_roundTrip : Client -> list Request -> Request -> Response + GoError;
}.

(** [http.Client.Do(req)]: the request goes out and the answer comes back. *)
Definition Client_Do `{GoEnv} (c : Client) (req : Request) : M (Response + GoError) :=
  fun w => (Ret (Client_roundTrip c (sent w) req),
            mkWorld (environ w) (clock w) (keys_heap w) (sent w ++ [req]) (log_out w)).

(** ** auth.go

    [InstanceKeys], which asks the metadata service of the instance for
    the keys and builds a [Keys] from its JSON answer, is left out. *)

(** Reading through a [*Keys]; a pointer to nothing panics. *)
Definition Keys_load (k : loc) : M Keys :=
  fun w => match keys_heap w !! k with
           | Some v => (Ret v, w)
           | None => (Panic nil_deref, w)
           end.

(** [&Keys{...}]: a fresh object. *)
Definition Keys_new (v : Keys) : M loc :=
  fun w => let k := fresh (dom (keys_heap w)) in
           (Ret k, mkWorld (environ w) (clock w) (<[k := v]> (keys_heap w)) (sent w) (log_out w)).

Definition Keys_AccessKeyID (k : loc) : M string :=
  let! v := Keys_load k in ret (accessKeyID v).
Definition Keys_SecretAccessKey (k : loc) : M string :=
  let! v := Keys_load k in ret (secretAccessKey v).
Definition Keys_SessionToken (k : loc) : M string :=
  let! v := Keys_load k in ret (sessionToken v).

(** [EnvKeys]: the keys of the environment; the error reports a missing
    identifier or secret, and the keys are returned all the same. *)
Definition EnvKeys : M (loc * error) :=
  let! id := os_Getenv "AWS_ACCESS_KEY_ID" in
  let! secret := os_Getenv "AWS_SECRET_ACCESS_KEY" in
  let! token := os_Getenv "AWS_SESSION_TOKEN" in
  let! keys := Keys_new (mkKeys id secret token) in
  if bool_decide (id = "") || bool_decide (secret = "")
  then ret (keys, Some (fmt_Errorf "keys not set in environment: AWS_ACCESS_KEY_ID, AWS_SECRET_ACCESS_KEY"))
  else ret (keys, None).

(** ** s3gof3r.go: endpoints *)

Definition versionParam : string := "versionId".

Definition lower_digit_or (extra : ascii) (c : ascii) : bool :=
  url.in_range "a" "z" c || url.in_range "0" "9" c || bool_decide (c = extra).

(** The pattern [regionMatcher] is compiled from, piece by piece: [s3];
    one of [-] and [.]; group 1, one or more of [a-z0-9-]; a dot; [amazonaws];
    a dot; [com]; group 2, any number of [.a-z0-9].  The two dots are not
    escaped in the pattern and stand for any character but a newline. *)
Definition regionMatcher : regexp.Regexp :=
  let sep := regexp.CharClass (fun c => bool_decide (c = "-"%char) || bool_decide (c = "."%char)) in
  let group1 := regexp.Capture 1 (regexp.Plus (regexp.CharClass (lower_digit_or "-"))) in
  let group2 := regexp.Capture 2 (regexp.Star (regexp.CharClass (lower_digit_or "."))) in
  foldr regexp.Concat group2
    [regexp.Literal "s3"; sep; group1; regexp.AnyCharNotNL; regexp.Literal "amazonaws";
     regexp.AnyCharNotNL; regexp.Literal "com"].

Definition regionMatcher_FindStringSubmatch (s : string) : list string :=
  regexp.FindStringSubmatch regionMatcher 2 s.

(** [S3ConfigSource]: what a bucket needs of its endpoint.  The region and
    the credentials are looked up when asked for. *)
Class S3ConfigSource (T : Type) := {
  Domain : T -> string;
  DomainForBucket : T -> string -> string;
  Region : T -> M string;
  AccessKeyID : T -> M string;
  SecretAccessKey : T -> M string;
  SessionToken : T -> M string;
}.

(** [S3]: the endpoint of an S3-compatible service and a pointer to the
    keys for it. *)
Record S3 := mkS3 {
  domain : string;
  S3_Keys : loc;
}.

Definition S3_Domain (s : S3) : string := domain s.

Definition S3_DomainForBucket (s : S3) (bucket : string) : string :=
  bucket +:+ "." +:+ S3_Domain s.

Definition cant_find_region : string := "can't find endpoint region".

(** [S3.Region]: the region, inferred from the domain. *)
Definition S3_Region (s : S3) : M string :=
  let! region := os_Getenv "AWS_REGION" in
  if bool_decide (S3_Domain s = "s3.amazonaws.com")
     || bool_decide (S3_Domain s = "s3-external-1.amazonaws.com")
  then ret "us-east-1"
  else if bool_decide (S3_Domain s = "s3-accelerate.amazonaws.com") then
    if bool_decide (region = "") then panic cant_find_region
    else ret region
  else
    let regions := regionMatcher_FindStringSubmatch (S3_Domain s) in
    if bool_decide (length regions < 2)%nat then
      if bool_decide (region = "") then panic cant_find_region
      else ret region
    else match regions !! 1%nat with
         | Some r => ret r
         | None => panic "index out of range"
         end.

#[export] Instance S3_source : S3ConfigSource S3 := {
  Domain := S3_Domain;
  DomainForBucket := S3_DomainForBucket;
  Region := S3_Region;
  AccessKeyID s := Keys_AccessKeyID (S3_Keys s);
  SecretAccessKey s := Keys_SecretAccessKey (S3_Keys s);
  SessionToken s := Keys_SessionToken (S3_Keys s);
}.

Definition DefaultDomain : string := "s3.amazonaws.com".

(** [New]: an empty domain stands for [DefaultDomain]. *)
Definition New (domain : string) (keys : loc) : S3 :=
  mkS3 (if bool_decide (domain = "") then DefaultDomain else domain) keys.

(** ** bucket.go: configuration and buckets *)

(** [int64] arithmetic wraps around. *)
Definition int64 (z : Z) : Z := (z + 2 ^ 63) mod 2 ^ 64 - 2 ^ 63.

(** [Config]: the parameters of a transfer. *)
Record Config `{GoEnv} := mkConfig {
  Config_Client : Client;   (* http client to use for requests *)
  Concurrency : Z;          (* number of parts to get or put concurrently *)
  PartSize : Z;             (* initial part size in bytes, an int64 *)
  NTry : Z;                 (* maximum attempts for each part *)
  Md5Check : bool;          (* the md5 hash of the object is stored in <bucket>/.md5/<object_key>.md5 *)
  Scheme : string;          (* url scheme, defaults to 'https' *)
  PathStyle : bool;         (* path style bucket addressing instead of virtual host style *)
}.

(** A [Bucket] for an S3 service; [T] is the type behind the interface
    value of its [S3] field. *)
Record Bucket `{GoEnv} (T : Type) := mkBucket {
  Bucket_S3 : T;
  Bucket_Name : string;
  Bucket_Config : Config;
}.
Arguments mkBucket {_ T} _ _ _.
Arguments Bucket_S3 {_ T} _.
Arguments Bucket_Name {_ T} _.
Arguments Bucket_Config {_ T} _.

Definition NewBucket `{GoEnv} {T} (s3 : T) (name : string) (config : Config)
  : Bucket T * error :=
  (mkBucket s3 name config, None).

(** Names the sources at hand use and other files of the library declare:
    the size unit [mb], the constructor of HTTP clients and the error made
    of an unexpected response. *)
Class Elsewhere `{GoEnv} := {
  mb : Z;
  ClientWithTimeout : Z -> Client;
  newRespError : Response -> GoError;
}.

Definition time_Second : Z := 1000000000.
Definition defaultClientTimeout : Z := 5 * time_Second.

(** [DefaultConfig]: the defaults used if no configuration is given. *)
Definition DefaultConfig `{Elsewhere} : Config := {|
  Concurrency := 10;
  PartSize := int64 (20 * mb);
  NTry := 10;
  Md5Check := true;
  Scheme := "https";
  Config_Client := ClientWithTimeout defaultClientTimeout;
  PathStyle := false;
|}.

(** [S3.Bucket]: a bucket on [s], its configuration being [DefaultConfig]. *)
Definition S3_Bucket `{Elsewhere} (s : S3) (name : string) : Bucket S3 :=
  fst (NewBucket s name DefaultConfig).

(** ** The accelerated endpoint *)

Definition defaultRegion : string := "us-west-2".

Record S3Accelerated := mkS3Accelerated {
  region : string;
  S3Accelerated_Keys : loc;
}.

Definition NewAcceleratedS3 (k : loc) : S3Accelerated * error :=
  (mkS3Accelerated defaultRegion k, None).

Definition NewAcceleratedS3InRegion (k : loc) (region : string) : S3Accelerated * error :=
  (mkS3Accelerated region k, None).

Definition S3Accelerated_Region (a : S3Accelerated) : string := region a.

Definition S3Accelerated_Domain (a : S3Accelerated) : string := "s3-accelerate.amazonaws.com".

Definition S3Accelerated_DomainForBucket (a : S3Accelerated) (bucket : string) : string :=
  bucket +:+ "." +:+ S3Accelerated_Domain a.

#[export] Instance S3Accelerated_source : S3ConfigSource S3Accelerated := {
  Domain := S3Accelerated_Domain;
  DomainForBucket := S3Accelerated_DomainForBucket;
  Region a := ret (S3Accelerated_Region a);
  AccessKeyID a := Keys_AccessKeyID (S3Accelerated_Keys a);
  SecretAccessKey a := Keys_SecretAccessKey (S3Accelerated_Keys a);
  SessionToken a := Keys_SessionToken (S3Accelerated_Keys a);
}.

Definition S3Accelerated_BucketWithDefaultConfig `{Elsewhere}
    (a : S3Accelerated) (name : string) : Bucket S3Accelerated :=
  let config := {|
    Concurrency := 10;
    PartSize := int64 (20 * mb);
    NTry := 10;
    Md5Check := true;
    Scheme := "https";
    Config_Client := ClientWithTimeout defaultClientTimeout;
    PathStyle := false;
  |} in
  fst (NewBucket a name config).

(** ** bucket.go: operations *)

(** [signer]: what [Bucket.Sign] hands to the signing code.  [Request] is
    a pointer there: signing works on the request of the caller. *)
Record signer (T : Type) := mkSigner {
  signer_Time : Z;
  signer_Request : Request;
  signer_S3Config : T;
}.
Arguments mkSigner {T} _ _ _.
Arguments signer_Time {T} _.
Arguments signer_Request {T} _.
Arguments signer_S3Config {T} _.

Definition with_Header (req : Request) (h : option http.Header) : Request :=
  http.mkRequest (http.Method req) (http.URL req) h (http.Body req)
                 (http.ContentLength req) (http.Host req).

(** The key of the checksum object, as [Delete] formats it, and as
    [DeleteMultiple] does. *)
Definition Delete_md5Key (path : string) : string := "/.md5/" +:+ path +:+ ".md5".
Definition DeleteMultiple_md5Key (key : string) : string := "/.md5/" +:+ key +:+ ".md".

Definition newline : string := String "010" EmptyString.

Section Operations.
Context `{Elsewhere} {T : Type} `{!S3ConfigSource T}.

(** Functions of the library whose files are not at hand: the signing
    code, the constructors of the two streams and the batched delete.
    The request [signer_sign] returns is the caller's after signing. *)
Context {Reader Writer DeleteResult : Type}.
Variable signer_sign : signer T -> M Request.
Variable newGetter : url.URL -> Bucket T -> M (option Reader * option http.Header * error).
Variable newPutter : url.URL -> option http.Header -> Bucket T -> M (option Writer * error).
Variable deleteMultiple : Bucket T -> bool -> list string -> M (DeleteResult * error).

(** [Bucket.Do] proxies through to the configured http client. *)
Definition Bucket_Do (b : Bucket T) (req : Request) : M (Response + GoError) :=
  Client_Do (Config_Client (Bucket_Config b)) req.

(** [Bucket.url]: the url of the given path.  A version is taken from the
    path's query, if there is one, and the path cut at its first [?];
    element 0 of a split always exists. *)
Definition Bucket_url (b : Bucket T) (bPath : string) : url.URL + GoError :=
  match url_Parse bPath with
  | inr err => inr err
  | inl purl =>
      let v := url.Get (URL_Query purl) versionParam in
      let '(vals, bPath) :=
        if bool_decide (v ≠ "")
        then (url.Add ∅ versionParam v, hd "" (strings.Split bPath "?"))
        else (∅, bPath) in
      if strings.Contains (Bucket_Name b) "." || PathStyle (Bucket_Config b) then
        inl {| url.Host := Domain (Bucket_S3 b);
               url.Scheme := Scheme (Bucket_Config b);
               url.Path := path.Clean ("/" +:+ Bucket_Name b +:+ "/" +:+ bPath);
               url.RawQuery := url.Encode vals;
               url.Opaque := ""; url.RawPath := ""; url.ForceQuery := false;
               url.Fragment := "" |}
      else
        inl {| url.Scheme := Scheme (Bucket_Config b);
               url.Path := path.Clean ("/" +:+ bPath);
               url.Host := path.Clean (DomainForBucket (Bucket_S3 b) (Bucket_Name b));
               url.RawQuery := url.Encode vals;
               url.Opaque := ""; url.RawPath := ""; url.ForceQuery := false;
               url.Fragment := "" |}
  end.

(** [Bucket.GetReader]. *)
Definition Bucket_GetReader (b : Bucket T) (path : string)
  : M (option Reader * option http.Header * error) :=
  if bool_decide (path = "") then
    ret (None, None, Some (errors_New "empty path requested"))
  else
    match Bucket_url b path with
    | inr err => ret (None, None, Some err)
    | inl u => newGetter u b
    end.

(** [Bucket.PutWriter]. *)
Definition Bucket_PutWriter (b : Bucket T) (path : string) (h : option http.Header)
  : M (option Writer * error) :=
  match Bucket_url b path with
  | inr err => ret (None, Some err)
  | inl u => newPutter u h b
  end.

(** [Bucket.Sign] signs the request. *)
Definition Bucket_Sign (b : Bucket T) (req : Request) : M Request :=
  let req :=
    match http.Header_ req with
    | None => with_Header req (Some ∅)
    | Some _ => req
    end in
  let req := with_Header req
    (Some (http.Set_ (default ∅ (http.Header_ req)) "User-Agent" "S3Gof3r")) in
  let! now := time_Now in
  signer_sign (mkSigner now req (Bucket_S3 b)).

(** [Bucket.delete]: one DELETE request.  The deferred [checkClose]
    closes the body of the response, which this world does not track. *)
Definition Bucket_delete (b : Bucket T) (path : string) : M error :=
  match Bucket_url b path with
  | inr err => ret (Some err)
  | inl u =>
      let r := http.mkRequest "DELETE" (Some u) None None 0 "" in
      let! r := Bucket_Sign b r in
      let! resp := Bucket_Do b r in
      match resp with
      | inr err => ret (Some err)
      | inl resp =>
          if bool_decide (http.StatusCode resp ≠ 204)
          then ret (Some (newRespError resp))
          else ret None
      end
  end.

(** [Bucket.Delete] deletes the key at [path], and with [Md5Check] the
    md5 file next. *)
Definition Bucket_Delete (b : Bucket T) (path : string) : M error :=
  let! err := Bucket_delete b path in
  match err with
  | Some e => ret (Some e)
  | None =>
      let! err :=
        if Md5Check (Bucket_Config b)
        then Bucket_delete b (Delete_md5Key path)
        else ret None in
      match err with
      | Some e => ret (Some e)
      | None =>
          let! _ := logger_Printf (path +:+ " deleted from " +:+ Bucket_Name b +:+ newline) in
          ret None
      end
  end.

(** [Bucket.DeleteMultiple] deletes the keys in a single request, the
    md5 files of the keys after the keys themselves. *)
Definition Bucket_DeleteMultiple (b : Bucket T) (quiet : bool) (keys : list string)
  : M (DeleteResult * error) :=
  let keys :=
    if Md5Check (Bucket_Config b)
    then keys ++ (DeleteMultiple_md5Key <$> keys)
    else keys in
  deleteMultiple b quiet keys.

End Operations.

(** The path of the object, once a version was taken from its query. *)
Definition key_of `{GoEnv} (bPath : string) (purl : url.URL) : string :=
  if bool_decide (url.Get (URL_Query purl) versionParam ≠ "")
  then hd "" (strings.Split bPath "?")
  else bPath.

(** ** The signer and the two streams, after the specification *)

Definition set_all (h : http.Header) (kvs : list (string * string)) : http.Header :=
  foldl (fun h kv => http.Set_ h kv.1 kv.2) h kvs.

Section Signer.
Context {T : Type} `{!S3ConfigSource T}.

(** The headers that authenticate a request: a function of the
    timestamp, the request, the domain, the region and the credentials. *)
Variable signature : Z -> Request -> string -> string -> Keys -> list (string * string).

(** Modelled from the spec: [signer.sign], the signing code behind
    [Bucket.Sign], is in a file that is not at hand.  Section 4.1: given
    credentials, endpoint descriptor (for region), method, path, query,
    headers and timestamp, it produces a deterministic signature and
    attaches it plus a timestamp header to the request; it fails if the
    region cannot be determined; it mutates only the request's header
    set. *)
Definition signer_sign (s : signer T) : M Request :=
  let! region := Region (signer_S3Config s) in
  let! id := AccessKeyID (signer_S3Config s) in
  let! secret := SecretAccessKey (signer_S3Config s) in
  let! token := SessionToken (signer_S3Config s) in
  let req := signer_Request s in
  let auth := signature (signer_Time s) req (Domain (signer_S3Config s)) region
                        (mkKeys id secret token) in
  ret (with_Header req (Some (set_all (default ∅ (http.Header_ req)) auth))).

End Signer.

(** What the specification asks of a transfer configuration:
    concurrency at least 1, part size above 0, at least one attempt. *)
Definition Config_valid `{GoEnv} (c : Config) : bool :=
  bool_decide (1 <= Concurrency c) && bool_decide (0 < PartSize c) && bool_decide (1 <= NTry c).

(** What a stream constructor returned, seen from the configuration: no
    stream, or a stream that holds the configuration of its bucket, with
    positive part size and nonzero concurrency. *)
Definition stream_config_ok `{GoEnv} (bucket_c : Config) (stream_c : option Config) : Prop :=
  match stream_c with
  | None => True
  | Some c => c = bucket_c /\ 0 < PartSize c /\ Concurrency c ≠ 0
  end.

Record getter `{GoEnv} (T : Type) := mkGetter {
  getter_url : url.URL;
  getter_b : Bucket T;
  getter_c : Config;
}.
Arguments mkGetter {_ T} _ _ _.
Arguments getter_c {_ T} _.

Record putter `{GoEnv} (T : Type) := mkPutter {
  putter_url : url.URL;
  putter_h : option http.Header;
  putter_b : Bucket T;
  putter_c : Config;
}.
Arguments mkPutter {_ T} _ _ _ _.
Arguments putter_c {_ T} _.

Definition configuration_error : GoError :=
  otherError "configuration" "invalid transfer configuration".
Definition not_found_error : GoError :=
  otherError "not found" "object not found".

Section Streams.
Context `{Elsewhere} {T : Type} `{!S3ConfigSource T}.
Variable sign : signer T -> M Request.

(** Modelled from the spec: [newGetter], the constructor of the download
    stream, is in a file that is not at hand.  Section 7: an invalid
    Transfer Configuration is rejected at stream-creation time, never
    during transfer.  Section 4.3: on creation the Getter issues a
    request to discover the object's metadata and returns the response
    headers to the caller; a 404-class response signals that the object
    was not found.  Section 6: every request is signed before dispatch.
    Section 3: the configuration is immutable for the transfer's
    lifetime, so the stream keeps the one it was checked with. *)
Definition newGetter (u : url.URL) (b : Bucket T)
  : M (option (getter T) * option http.Header * error) :=
  let c := Bucket_Config b in
  if negb (Config_valid c) then ret (None, None, Some configuration_error)
  else
    let r := http.mkRequest "GET" (Some u) None None 0 "" in
    let! r := Bucket_Sign sign b r in
    let! resp := Bucket_Do b r in
    match resp with
    | inr err => ret (None, None, Some err)
    | inl resp =>
        if bool_decide (http.StatusCode resp = 404) then
          ret (None, None, Some not_found_error)
        else if bool_decide (200 <= http.StatusCode resp < 300) then
          ret (Some (mkGetter u b c), Some (http.RespHeader resp), None)
        else ret (None, None, Some (newRespError resp))
    end.

(** Modelled from the spec: [newPutter], the constructor of the upload
    stream, is in a file that is not at hand.  Section 7: an invalid
    Transfer Configuration is rejected at stream-creation time.
    Section 4.4: the multipart upload session is initiated by the first
    write, so creation sends nothing. *)
Definition newPutter (u : url.URL) (h : option http.Header) (b : Bucket T)
  : M (option (putter T) * error) :=
  let c := Bucket_Config b in
  if negb (Config_valid c) then ret (None, Some configuration_error)
  else ret (Some (mkPutter u h b c), None).

End Streams.

(** ** A concrete environment, to run the operations on examples *)

Module plain.

Definition control (c : ascii) : bool :=
  (N_of_ascii c <? 32)%N || bool_decide (c = "127"%char).

(** Text before and after the first occurrence of a byte. *)
Fixpoint cut (s : string) (sep : ascii) : string * option string :=
  match s with
  | EmptyString => (EmptyString, None)
  | String c s' =>
      if decide (c = sep) then (EmptyString, Some s')
      else let '(a, b) := cut s' sep in (String c a, b)
  end.

(** [url.Parse] on plain object paths: no scheme, no authority and no
    percent escape in the path.  The fragment starts at the first [#],
    the query at the first [?] before it; control bytes are refused. *)
Definition Parse (raw : string) : url.URL + GoError :=
  if existsb control (strings.bytes raw) then
    inr (urlError "parse" raw "net/url: invalid control character in URL")
  else
    let '(rest, frag) := cut raw "#" in
    let '(p, query) := cut rest "?" in
    inl {| url.Scheme := ""; url.Opaque := ""; url.Host := ""; url.Path := p;
           url.RawPath := ""; url.ForceQuery := bool_decide (query = Some "");
           url.RawQuery := default "" query; url.Fragment := default "" frag |}.

Definition unhex (c : ascii) : option N :=
  if url.in_range "0" "9" c then Some (N_of_ascii c - 48)%N
  else if url.in_range "a" "f" c then Some (N_of_ascii c - 87)%N
  else if url.in_range "A" "F" c then Some (N_of_ascii c - 55)%N
  else None.

(** [url.QueryUnescape]; [None] stands for its error. *)
Fixpoint QueryUnescape (s : string) : option string :=
  match s with
  | EmptyString => Some EmptyString
  | String "%" (String h (String l s')) =>
      hi ← unhex h; lo ← unhex l; r ← QueryUnescape s';
      Some (String (ascii_of_N (16 * hi + lo)) r)
  | String "%" _ => None
  | String "+" s' => String " " <$> QueryUnescape s'
  | String c s' => String c <$> QueryUnescape s'
  end.

(** [url.ParseQuery], errors dropped as [URL.Query] drops them: pairs
    are separated by [&], a pair with a semicolon or a bad escape is
    skipped. *)
Definition parsePair (v : url.Values) (pair : string) : url.Values :=
  if decide (pair = "") then v
  else if strings.Contains pair ";" then v
  else
    let '(key, value) := cut pair "=" in
    match QueryUnescape key, QueryUnescape (default "" value) with
    | Some key, Some value => url.Add v key value
    | _, _ => v
    end.

Definition Query (u : url.URL) : url.Values :=
  foldl parsePair ∅ (strings.Split (url.RawQuery u) "&").

(** A client that answers every request with 204 No Content; a client
    is told apart by its timeout. *)
#[export] Instance env : GoEnv := {
  url_Parse := Parse;
  URL_Query := Query;
  Client := Z;
  Client_roundTrip _ _ _ := inl (http.mkResponse 204 ∅ "");
}.

#[export] Instance elsewhere : Elsewhere := {
  mb := 1048576;
  ClientWithTimeout d := d;
  newRespError resp := respError (http.StatusCode resp) (http.RespBody resp);
}.

(** A signature that is a function of its inputs, nothing more. *)
Definition signature (now : Z) (req : Request) (domain region : string) (k : Keys)
  : list (string * string) :=
  [("X-Amz-Date", "t"); ("Authorization", accessKeyID k +:+ "/" +:+ region +:+ "/" +:+ domain)].

(** A batched delete that reports the keys it was given. *)
Definition echo_keys {T} (b : Bucket T) (quiet : bool) (keys : list string)
  : M (list string * error) := ret (keys, None).

Definition world0 : World :=
  mkWorld (fun _ => "") 0 {[ 1%positive := mkKeys "AKID" "secret" "" ]} [] [].

Definition setenv (name value : string) (w : World) : World :=
  mkWorld (fun n => if decide (n = name) then value else environ w n)
          (clock w) (keys_heap w) (sent w) (log_out w).

End plain.

(** ** Names used to state further properties *)

Section StarLoop.
Context {R : Type}.
Variable body : list ascii -> regexp.Captures -> (list ascii -> regexp.Captures -> option R) -> option R.
Variable k : list ascii -> regexp.Captures -> option R.

(** The repetition of [regexp.run], on its own: the body, the continuation
    and the fuel are those of the [Star] case. *)
Fixpoint star_loop (fuel : nat) (s : list ascii) (caps : regexp.Captures) : option R :=
  match fuel with
  | O => k s caps
  | S fuel' =>
      match body s caps (fun s' caps' =>
              if bool_decide (length s' < length s)%nat
              then star_loop fuel' s' caps' else None) with
      | Some x => Some x
      | None => k s caps
      end
  end.
End StarLoop.

(** The input ends, or goes on with a byte outside the class. *)
Definition stops (f : ascii -> bool) (l : list ascii) : Prop :=
  match l with
  | [] => True
  | c :: _ => f c = false
  end.

(** The domain of a regional endpoint: [s3], a separator, the region,
    [.amazonaws.com], and whatever follows (such as [.cn]). *)
Definition regional (sepc : ascii) (r rest : string) : string :=
  "s3" +:+ String sepc (r +:+ ".amazonaws.com" +:+ rest).

(** The world once a request has gone out. *)
Definition sent_one (w : World) (r : Request) : World :=
  mkWorld (environ w) (clock w) (keys_heap w) (sent w ++ [r]) (log_out w).

(** The request [Bucket.delete] builds for a url. *)
Definition delete_request (u : url.URL) : Request :=
  http.mkRequest "DELETE" (Some u) None None 0 "".

(** The world once a line has gone to the logger. *)
Definition logged (w : World) (line : string) : World :=
  mkWorld (environ w) (clock w) (keys_heap w) (sent w) (log_out w ++ [line]).

(** An element of a cleaned path: not empty, not [.] nor [..], and
    without a slash. *)
Definition clean_elem (e : string) : Prop :=
  e ≠ "" /\ e ≠ "." /\ e ≠ ".." /\ "/"%char ∉ strings.bytes e.

(** * Properties *)

(** ** The model of the standard library on examples *)

Example Clean_ex1 : path.Clean "/b//a/./c/../d/" = "/b/a/d".
Proof. reflexivity. Qed.

Example Clean_ex2 : path.Clean "a/../../b" = "../b".
Proof. reflexivity. Qed.

Example Clean_ex3 : path.Clean "/../a" = "/a".
Proof. reflexivity. Qed.

Example Clean_ex4 : path.Clean "bucket.s3.amazonaws.com" = "bucket.s3.amazonaws.com".
Proof. reflexivity. Qed.

Example Split_ex1 : strings.Split "a?b?c" "?" = ["a"; "b"; "c"].
Proof. reflexivity. Qed.

Example QueryEscape_ex : url.QueryEscape "a b/c~1" = "a+b%2Fc~1".
Proof. reflexivity. Qed.

Example Encode_ex :
  url.Encode (url.Add (url.Add (url.Add ∅ "versionId" "3 4") "a" "1") "a" "2")
  = "a=1&a=2&versionId=3+4".
Proof. vm_compute. reflexivity. Qed.

Example Encode_nil : url.Encode ∅ = "".
Proof. reflexivity. Qed.

Example canonical_ex : http.CanonicalMIMEHeaderKey "user-agent" = "User-Agent"
  /\ http.CanonicalMIMEHeaderKey "User-Agent" = "User-Agent".
Proof. split; reflexivity. Qed.

Example region_ex1 :
  regionMatcher_FindStringSubmatch "s3-eu-west-1.amazonaws.com"
  = ["s3-eu-west-1.amazonaws.com"; "eu-west-1"; ""].
Proof. vm_compute. reflexivity. Qed.

Example region_ex2 :
  regionMatcher_FindStringSubmatch "bucket.s3.cn-north-1.amazonaws.com.cn"
  = ["s3.cn-north-1.amazonaws.com.cn"; "cn-north-1"; ".cn"].
Proof. vm_compute. reflexivity. Qed.

Example region_ex3 : regionMatcher_FindStringSubmatch "s3.amazonaws.com" = [].
Proof. vm_compute. reflexivity. Qed.

Example region_ex4 : regionMatcher_FindStringSubmatch "storage.example.com" = [].
Proof. vm_compute. reflexivity. Qed.

Example region_ex5 :
  regionMatcher_FindStringSubmatch "s3-a-b.amazonaws.com" = ["s3-a-b.amazonaws.com"; "a-b"; ""].
Proof. vm_compute. reflexivity. Qed.

Example plain_query_ex :
  url.Get (plain.Query match plain.Parse "dir/key?x=1&versionId=a%2Fb+c#frag" with
                       | inl u => u | inr _ => url.mkURL "" "" "" "" "" false "" "" end)
          "versionId" = "a/b c".
Proof. vm_compute. reflexivity. Qed.

(** ** Region of an endpoint *)

Lemma search_length r n s :
  regexp.search r n s = [] \/ length (regexp.search r n s) = S n.
Proof.
  induction s as [|c s IH]; simpl.
  - destruct (regexp.run _ _ _ _) as [[s' caps]|]; [right|left; reflexivity].
    simpl. rewrite length_fmap, length_seq. reflexivity.
  - destruct (regexp.run _ _ _ _) as [[s' caps]|]; [right|exact IH].
    simpl. rewrite length_fmap, length_seq. reflexivity.
Qed.

(** The test [len(regions) < 2] of [Region] holds exactly when the
    pattern matched nowhere. *)
Lemma regionMatcher_no_match domain :
  (length (regionMatcher_FindStringSubmatch domain) < 2)%nat
  <-> regionMatcher_FindStringSubmatch domain = [].
Proof.
  unfold regionMatcher_FindStringSubmatch, regexp.FindStringSubmatch.
  destruct (search_length regionMatcher 2 (strings.bytes domain)) as [E|E].
  - rewrite E. simpl. split; [reflexivity|lia].
  - split; [lia|]. intros E'. rewrite E' in E. discriminate.
Qed.

(** [Region], for a domain that none of its cases recognizes: the
    AWS_REGION of the environment, or a panic without one. *)
Lemma S3_Region_fallback (s : S3) (w : World) :
  S3_Domain s ≠ "s3.amazonaws.com" ->
  S3_Domain s ≠ "s3-external-1.amazonaws.com" ->
  S3_Domain s ≠ "s3-accelerate.amazonaws.com" ->
  regionMatcher_FindStringSubmatch (S3_Domain s) = [] ->
  (environ w "AWS_REGION" ≠ "" ->
     S3_Region s w = (Ret (environ w "AWS_REGION"), w)) /\
  (environ w "AWS_REGION" = "" ->
     S3_Region s w = (Panic cant_find_region, w)).
Proof.
  intros H1 H2 H3 Hm. simpl. unfold S3_Region, bind, os_Getenv.
  rewrite (bool_decide_eq_false_2 _ H1), (bool_decide_eq_false_2 _ H2),
          (bool_decide_eq_false_2 _ H3), Hm.
  simpl. split; intros Hr.
  - rewrite (bool_decide_eq_false_2 _ Hr). reflexivity.
  - rewrite (bool_decide_eq_true_2 _ Hr). reflexivity.
Qed.

(** With the signer of the specification, a panic of [Region] is the
    outcome of [Sign], and a request that cannot be signed for want of a
    region is not dispatched: [delete] panics with the world untouched. *)
Lemma Sign_without_region `{Elsewhere} signature (b : Bucket S3) (req : Request)
    (w : World) msg :
  Region (Bucket_S3 b) w = (Panic msg, w) ->
  Bucket_Sign (signer_sign signature) b req w = (Panic msg, w).
Proof.
  intros Hr. unfold Bucket_Sign, bind at 1, time_Now, signer_sign. simpl.
  unfold bind at 1. simpl in Hr. simpl. rewrite Hr. reflexivity.
Qed.

Lemma delete_without_region `{Elsewhere} signature (b : Bucket S3) (p : string) (w : World) u :
  Bucket_url b p = inl u ->
  Region (Bucket_S3 b) w = (Panic cant_find_region, w) ->
  Bucket_delete (signer_sign signature) b p w = (Panic cant_find_region, w).
Proof.
  intros Hu Hr. unfold Bucket_delete. rewrite Hu.
  unfold bind at 1. rewrite (Sign_without_region signature b _ w _ Hr). reflexivity.
Qed.

(** With a region and the keys at hand, the signer of the specification
    returns the request with the authentication headers computed from that
    region set in its header. *)
Lemma signer_sign_with_region signature (s : signer S3) (w : World) (r : string) (kv : Keys) :
  S3_Region (signer_S3Config s) w = (Ret r, w) ->
  keys_heap w !! S3_Keys (signer_S3Config s) = Some kv ->
  signer_sign signature s w
  = (Ret (with_Header (signer_Request s)
            (Some (set_all (default ∅ (http.Header_ (signer_Request s)))
                     (signature (signer_Time s) (signer_Request s)
                        (S3_Domain (signer_S3Config s)) r kv)))), w).
Proof.
  intros Hr Hk. destruct kv as [id secret token].
  unfold signer_sign, bind. simpl. rewrite Hr. simpl.
  unfold Keys_AccessKeyID, Keys_SecretAccessKey, Keys_SessionToken, bind, Keys_load, ret.
  rewrite Hk. simpl. rewrite Hk. simpl. rewrite Hk. reflexivity.
Qed.

(** C1. Take a bucket on an endpoint whose domain is none of the two
    us-east-1 domains, not the accelerate domain and not matched by the
    region pattern.  With AWS_REGION set, [Region] answers with it and the
    request is signed for that region.  With AWS_REGION empty, [Region]
    panics ("can't find endpoint region"), and so does [Sign]: signing
    fails, and neither [delete] nor [Delete] dispatches anything -- the
    list of requests sent is as before, and wherever a url can be built
    they end in that panic, with the world untouched.  The signing code
    behind [Sign] is the one modelled from the specification. *)
Theorem Region_unrecognized_domain `{Elsewhere}
    (signature : Z -> Request -> string -> string -> Keys -> list (string * string))
    (b : Bucket S3) (req : Request) (w : World) :
  S3_Domain (Bucket_S3 b) ≠ "s3.amazonaws.com" ->
  S3_Domain (Bucket_S3 b) ≠ "s3-external-1.amazonaws.com" ->
  S3_Domain (Bucket_S3 b) ≠ "s3-accelerate.amazonaws.com" ->
  regionMatcher_FindStringSubmatch (S3_Domain (Bucket_S3 b)) = [] ->
  (environ w "AWS_REGION" ≠ "" ->
     S3_Region (Bucket_S3 b) w = (Ret (environ w "AWS_REGION"), w)
     /\ forall kv,
          keys_heap w !! S3_Keys (Bucket_S3 b) = Some kv ->
          Bucket_Sign (signer_sign signature) b req w
          = (Ret (with_Header req
                    (Some (set_all
                             (<["User-Agent" := ["S3Gof3r"]]> (default ∅ (http.Header_ req)))
                             (signature (clock w)
                                (with_Header req
                                   (Some (<["User-Agent" := ["S3Gof3r"]]>
                                            (default ∅ (http.Header_ req)))))
                                (S3_Domain (Bucket_S3 b))
                                (environ w "AWS_REGION") kv)))), w))
  /\ (environ w "AWS_REGION" = "" ->
      S3_Region (Bucket_S3 b) w = (Panic cant_find_region, w)
      /\ Bucket_Sign (signer_sign signature) b req w = (Panic cant_find_region, w)
      /\ forall p,
           sent (Bucket_delete (signer_sign signature) b p w).2 = sent w
           /\ sent (Bucket_Delete (signer_sign signature) b p w).2 = sent w
           /\ (forall u,
                 Bucket_url b p = inl u ->
                 Bucket_delete (signer_sign signature) b p w = (Panic cant_find_region, w)
                 /\ Bucket_Delete (signer_sign signature) b p w
                    = (Panic cant_find_region, w))).
Proof.
  intros H1 H2 H3 Hm.
  destruct (S3_Region_fallback (Bucket_S3 b) w H1 H2 H3 Hm) as [Hset Hunset].
  split.
  - intros Hr. specialize (Hset Hr). split; [exact Hset|].
    intros kv Hk.
    assert (Hprep : Bucket_Sign (signer_sign signature) b req w
              = signer_sign signature
                  (mkSigner (clock w)
                     (with_Header req
                        (Some (<["User-Agent" := ["S3Gof3r"]]> (default ∅ (http.Header_ req)))))
                     (Bucket_S3 b)) w).
    { unfold Bucket_Sign, bind, time_Now.
      destruct (http.Header_ req) eqn:Eh; [|reflexivity].
      simpl. rewrite Eh. reflexivity. }
    rewrite Hprep.
    exact (signer_sign_with_region signature
             (mkSigner (clock w)
                (with_Header req
                   (Some (<["User-Agent" := ["S3Gof3r"]]> (default ∅ (http.Header_ req)))))
                (Bucket_S3 b))
             w (environ w "AWS_REGION") kv Hset Hk).
  - intros Hr. specialize (Hunset Hr). split; [exact Hunset|].
    split; [exact (Sign_without_region signature b req w _ Hunset)|].
    intros p.
    destruct (Bucket_url b p) as [u|e] eqn:Hu.
    + pose proof (delete_without_region signature b p w u Hu Hunset) as Hd.
      assert (HD : Bucket_Delete (signer_sign signature) b p w = (Panic cant_find_region, w))
        by (unfold Bucket_Delete, bind; rewrite Hd; reflexivity).
      rewrite Hd, HD. repeat split; auto.
    + assert (Hd : Bucket_delete (signer_sign signature) b p w = (Ret (Some e), w))
        by (unfold Bucket_delete; rewrite Hu; reflexivity).
      assert (HD : Bucket_Delete (signer_sign signature) b p w = (Ret (Some e), w))
        by (unfold Bucket_Delete, bind; rewrite Hd; reflexivity).
      rewrite Hd, HD. repeat split; discriminate.
Qed.

Section RegionExamples.
Import plain.

Lemma Region_unrecognized_domain_witness :
  (S3_Region (New "storage.example.com" 1%positive)
     (setenv "AWS_REGION" "eu-central-1" world0)
   = (Ret "eu-central-1", setenv "AWS_REGION" "eu-central-1" world0)
   /\ match Bucket_Sign (signer_sign signature)
              (S3_Bucket (New "storage.example.com" 1%positive) "bucket")
              (delete_request (url.mkURL "https" "" "bucket.storage.example.com" "/key" ""
                                 false "" ""))
              (setenv "AWS_REGION" "eu-central-1" world0) with
      | (Ret r, _) =>
          (h ← http.Header_ r; (h : http.Header) !! "Authorization")
          = Some ["AKID/eu-central-1/storage.example.com"]
      | _ => False
      end)
  /\ S3_Region (New "storage.example.com" 1%positive) world0
     = (Panic cant_find_region, world0)
  /\ Bucket_delete (signer_sign signature)
       (S3_Bucket (New "storage.example.com" 1%positive) "bucket") "key" world0
     = (Panic cant_find_region, world0)
  /\ sent (Bucket_Delete (signer_sign signature)
             (S3_Bucket (New "storage.example.com" 1%positive) "bucket") "key" world0).2
     = [].
Proof.
  pose proof (Region_unrecognized_domain signature
                (S3_Bucket (New "storage.example.com" 1%positive) "bucket")
                (delete_request (url.mkURL "https" "" "bucket.storage.example.com" "/key" ""
                                   false "" ""))) as Hthm.
  split; [split|].
  - apply (Hthm (setenv "AWS_REGION" "eu-central-1" world0));
      [discriminate | discriminate | discriminate | vm_compute; reflexivity | discriminate].
  - edestruct (Hthm (setenv "AWS_REGION" "eu-central-1" world0)) as [[_ Hs] _];
      [discriminate | discriminate | discriminate | vm_compute; reflexivity | discriminate |].
    rewrite (Hs (mkKeys "AKID" "secret" "") eq_refl). vm_compute. reflexivity.
  - edestruct (Hthm world0) as [_ (Hr & _ & Hd)];
      [discriminate | discriminate | discriminate | vm_compute; reflexivity | reflexivity |].
    split; [exact Hr|]. destruct (Hd "key") as (_ & HsD & Hp).
    split; [|exact HsD].
    destruct (Hp (url.mkURL "https" "" "bucket.storage.example.com" "/key" "" false "" ""))
      as [Hdel _]; [vm_compute; reflexivity | exact Hdel].
Defined.

End RegionExamples.

(** The accelerate domain takes the same fallback, and a domain the
    pattern matches gives its first group. *)
Lemma Region_accelerate_domain (k : loc) (w : World) :
  environ w "AWS_REGION" = "" ->
  S3_Region (New "s3-accelerate.amazonaws.com" k) w = (Panic cant_find_region, w).
Proof.
  intros Hr. simpl. unfold S3_Region, bind, os_Getenv. simpl.
  rewrite (bool_decide_eq_true_2 _ Hr). reflexivity.
Qed.

Example Region_matched :
  S3_Region (New "s3-eu-west-1.amazonaws.com" 1%positive) plain.world0
  = (Ret "eu-west-1", plain.world0).
Proof. vm_compute. reflexivity. Qed.

Example Region_default :
  S3_Region (New "" 1%positive) plain.world0 = (Ret "us-east-1", plain.world0).
Proof. vm_compute. reflexivity. Qed.

(** ** Default configurations *)

Lemma int64_small z : - 2 ^ 63 <= z < 2 ^ 63 -> int64 z = z.
Proof. intros Hz. unfold int64. rewrite Z.mod_small; lia. Qed.

(** C5. The configurations the library builds by default -- [DefaultConfig],
    the one of [S3.Bucket] and the one of [BucketWithDefaultConfig] -- have
    Concurrency 10, PartSize 20 * mb and NTry 10, hence concurrency >= 1,
    part size > 0 and attempts >= 1, for a positive unit [mb] whose
    twentyfold fits an int64. *)
Theorem default_configs_valid `{Elsewhere} (s : S3) (a : S3Accelerated) (name : string) :
  0 < mb -> 20 * mb < 2 ^ 63 ->
  Forall (fun c : Config =>
            (Concurrency c = 10 /\ PartSize c = 20 * mb /\ NTry c = 10)
            /\ 1 <= Concurrency c /\ 0 < PartSize c /\ 1 <= NTry c)
         [DefaultConfig;
          Bucket_Config (S3_Bucket s name);
          Bucket_Config (S3Accelerated_BucketWithDefaultConfig a name)].
Proof.
  intros Hpos Hfit.
  assert (Hp : int64 (20 * mb) = 20 * mb) by (apply int64_small; lia).
  repeat constructor; simpl; try rewrite Hp; lia.
Qed.

Section DefaultConfigExample.
Import plain.

Lemma default_configs_valid_witness :
  Forall (fun c : Config =>
            (Concurrency c = 10 /\ PartSize c = 20 * 1048576 /\ NTry c = 10)
            /\ 1 <= Concurrency c /\ 0 < PartSize c /\ 1 <= NTry c)
         [DefaultConfig;
          Bucket_Config (S3_Bucket (New "" 1%positive) "bucket");
          Bucket_Config (S3Accelerated_BucketWithDefaultConfig
                           (NewAcceleratedS3 1%positive).1 "bucket")].
Proof.
  exact (default_configs_valid (New "" 1%positive) (NewAcceleratedS3 1%positive).1
           "bucket" eq_refl eq_refl).
Defined.

End DefaultConfigExample.

(** ** Keys of the checksum object *)

Lemma md5Key_forms (k : string) :
  Delete_md5Key k = "/.md5/" +:+ k +:+ ".md5"
  /\ DeleteMultiple_md5Key k = "/.md5/" +:+ k +:+ ".md".
Proof. split; reflexivity. Qed.

Lemma md5Keys_differ (k : string) : Delete_md5Key k ≠ DeleteMultiple_md5Key k.
Proof.
  unfold Delete_md5Key, DeleteMultiple_md5Key. intros E.
  apply (inj (String.append "/.md5/")) in E.
  apply (inj (String.append k)) in E. discriminate.
Qed.

(** C2. With [Md5Check] on, [Delete] of a key [k], once [k] itself is
    deleted, goes on to delete "/.md5/k.md5", while [DeleteMultiple] hands
    the batched delete the keys followed by "/.md5/k.md" for each key [k];
    the two keys differ for every [k]. *)
Theorem sidecar_keys_inconsistent `{Elsewhere} {T : Type} `{!S3ConfigSource T}
    {DeleteResult : Type} (sign : signer T -> M Request)
    (deleteMultiple : Bucket T -> bool -> list string -> M (DeleteResult * error))
    (b : Bucket T) :
  Md5Check (Bucket_Config b) = true ->
  (forall k w w1,
      Bucket_delete sign b k w = (Ret None, w1) ->
      Bucket_Delete sign b k w =
      (let! err := Bucket_delete sign b ("/.md5/" +:+ k +:+ ".md5") in
       match err with
       | Some e => ret (Some e)
       | None =>
           let! _ := logger_Printf (k +:+ " deleted from " +:+ Bucket_Name b +:+ newline) in
           ret None
       end) w1)
  /\ (forall quiet keys,
         Bucket_DeleteMultiple deleteMultiple b quiet keys =
         deleteMultiple b quiet (keys ++ ((fun k => "/.md5/" +:+ k +:+ ".md") <$> keys)))
  /\ (forall k : string, "/.md5/" +:+ k +:+ ".md5" ≠ "/.md5/" +:+ k +:+ ".md").
Proof.
  intros Hmd5. split; [|split].
  - intros k w w1 Hd. unfold Bucket_Delete. unfold bind at 1. rewrite Hd, Hmd5.
    reflexivity.
  - intros quiet keys. unfold Bucket_DeleteMultiple. rewrite Hmd5. reflexivity.
  - intros k. apply md5Keys_differ.
Qed.

Section SidecarExamples.
Import plain.

Lemma sidecar_keys_inconsistent_witness :
  Md5Check (Bucket_Config (S3_Bucket (New "" 1%positive) "bucket")) = true
  /\ Bucket_DeleteMultiple echo_keys (S3_Bucket (New "" 1%positive) "bucket") false ["a"; "b"]
     = echo_keys (S3_Bucket (New "" 1%positive) "bucket") false
         ["a"; "b"; "/.md5/a.md"; "/.md5/b.md"]
  /\ "/.md5/a.md5" ≠ "/.md5/a.md".
Proof.
  pose proof (sidecar_keys_inconsistent (signer_sign signature) echo_keys
                (S3_Bucket (New "" 1%positive) "bucket") eq_refl) as [_ [Hm Hd]].
  split; [reflexivity|]. split; [exact (Hm false ["a"; "b"]) | exact (Hd "a")].
Defined.

(** [Delete] at work: two DELETE requests go out, for the object and for
    its md5 file, and one line is logged. *)
Example Delete_requests :
  let '(r, w) := Bucket_Delete (signer_sign signature)
                   (S3_Bucket (New "" 1%positive) "bucket") "a" world0 in
  r = Ret None
  /\ (fun req => (http.Method req, url.Host <$> http.URL req, url.Path <$> http.URL req))
       <$> sent w
     = [("DELETE", Some "bucket.s3.amazonaws.com", Some "/a");
        ("DELETE", Some "bucket.s3.amazonaws.com", Some "/.md5/a.md5")]
  /\ length (log_out w) = 1%nat.
Proof. vm_compute. repeat split. Qed.

End SidecarExamples.

(** C4. The checksum object of a key [k] is documented ([Config.Md5Check])
    and deleted by [Delete] at "/.md5/k.md5"; [DeleteMultiple] names it
    differently.  On a bucket with the default configuration, the batched
    delete of "photo.jpg" is asked to delete "/.md5/photo.jpg.md", which is
    not the key of the form prefix, key, ".md5". *)
Theorem DeleteMultiple_md5_suffix `{Elsewhere} {DeleteResult : Type}
    (deleteMultiple : Bucket S3 -> bool -> list string -> M (DeleteResult * error))
    (s : S3) (quiet : bool) :
  Bucket_DeleteMultiple deleteMultiple (S3_Bucket s "bucket") quiet ["photo.jpg"]
  = deleteMultiple (S3_Bucket s "bucket") quiet ["photo.jpg"; "/.md5/photo.jpg.md"]
  /\ "/.md5/photo.jpg.md" ≠ "/.md5/" +:+ "photo.jpg" +:+ ".md5"
  /\ Delete_md5Key "photo.jpg" = "/.md5/" +:+ "photo.jpg" +:+ ".md5".
Proof. split; [reflexivity|]. split; [discriminate|reflexivity]. Qed.

(** ** Credentials are read, never written *)

Create HintDb keys_frame.

Lemma keeps_ret {A} (a : A) : keeps_keys (ret a).
Proof. intros w. reflexivity. Qed.

Lemma keeps_panic {A} msg : keeps_keys (@panic A msg).
Proof. intros w. reflexivity. Qed.

Lemma keeps_bind {A B} (m : M A) (f : A -> M B) :
  keeps_keys m -> (forall a, keeps_keys (f a)) -> keeps_keys (bind m f).
Proof.
  intros Hm Hf w. unfold bind. specialize (Hm w).
  destruct (m w) as [[a|msg] w1]; simpl in *; [|exact Hm].
  rewrite Hf. exact Hm.
Qed.

Lemma keeps_Getenv name : keeps_keys (os_Getenv name).
Proof. intros w. reflexivity. Qed.

Lemma keeps_Now : keeps_keys time_Now.
Proof. intros w. reflexivity. Qed.

Lemma keeps_Printf line : keeps_keys (logger_Printf line).
Proof. intros w. reflexivity. Qed.

Lemma keeps_Client_Do `{GoEnv} c req : keeps_keys (Client_Do c req).
Proof. intros w. reflexivity. Qed.

Lemma keeps_Keys_load k : keeps_keys (Keys_load k).
Proof. intros w. unfold Keys_load. destruct (keys_heap w !! k); reflexivity. Qed.

#[local] Hint Resolve keeps_ret keeps_panic keeps_Getenv keeps_Now keeps_Printf
  keeps_Client_Do keeps_Keys_load : keys_frame.

Ltac keeps_step :=
  first [ progress cbv zeta
        | apply keeps_bind; [|intros ?]
        | match goal with
          | |- keeps_keys (if ?c then _ else _) => destruct c
          | |- keeps_keys (match ?x with _ => _ end) => destruct x
          end
        | solve [eauto with keys_frame] ].

Lemma keeps_Keys_accessors k :
  keeps_keys (Keys_AccessKeyID k) /\ keeps_keys (Keys_SecretAccessKey k)
  /\ keeps_keys (Keys_SessionToken k).
Proof.
  unfold Keys_AccessKeyID, Keys_SecretAccessKey, Keys_SessionToken.
  repeat split; repeat keeps_step.
Qed.

Lemma keeps_S3_Region s : keeps_keys (S3_Region s).
Proof. unfold S3_Region. repeat keeps_step. Qed.

Lemma keeps_signer_sign_S3 signature (s : signer S3) :
  keeps_keys (signer_sign signature s).
Proof.
  pose proof (keeps_Keys_accessors (S3_Keys (signer_S3Config s))) as (Ha & Hs & Ht).
  pose proof (keeps_S3_Region (signer_S3Config s)) as Hr.
  unfold signer_sign. simpl. repeat keeps_step.
Qed.

Section KeysFrame.
Context `{Elsewhere} {T : Type} `{!S3ConfigSource T}.
Variable sign : signer T -> M Request.
Hypothesis keeps_sign : forall s, keeps_keys (sign s).

Lemma keeps_Sign b req : keeps_keys (Bucket_Sign sign b req).
Proof using keeps_sign. unfold Bucket_Sign. repeat keeps_step. Qed.

Lemma keeps_delete b p : keeps_keys (Bucket_delete sign b p).
Proof using keeps_sign.
  pose proof keeps_Sign. unfold Bucket_delete, Bucket_Do. repeat keeps_step.
Qed.

Lemma keeps_Delete b p : keeps_keys (Bucket_Delete sign b p).
Proof using keeps_sign.
  pose proof keeps_delete. unfold Bucket_Delete. repeat keeps_step.
Qed.
End KeysFrame.

Lemma Keys_new_lookup v w :
  exists k, Keys_new v w = (Ret k, (Keys_new v w).2)
            /\ keys_heap w !! k = None
            /\ keys_heap (Keys_new v w).2 = <[k := v]> (keys_heap w).
Proof.
  exists (fresh (dom (keys_heap w))). unfold Keys_new. simpl.
  split; [reflexivity|]. split; [|reflexivity].
  apply not_elem_of_dom. apply is_fresh.
Qed.

(** C6. Credentials are immutable once constructed.  The accessors of a
    newly built [Keys] return the identifier, the secret and the token it
    was built from; building further keys ([EnvKeys]) leaves the existing
    ones alone; a bucket keeps the endpoint, hence the pointer to the keys,
    it was made with; and signing and deleting leave every [Keys] object as
    it was, given that the signing code does.  Building a url does not
    touch the world at all. *)
Theorem Keys_immutable `{Elsewhere} {T : Type} `{!S3ConfigSource T}
    (sign : signer T -> M Request) :
  (forall s, keeps_keys (sign s)) ->
  (forall id secret token w,
      exists k w',
        Keys_new (mkKeys id secret token) w = (Ret k, w')
        /\ Keys_AccessKeyID k w' = (Ret id, w')
        /\ Keys_SecretAccessKey k w' = (Ret secret, w')
        /\ Keys_SessionToken k w' = (Ret token, w'))
  /\ (forall w k v, keys_heap w !! k = Some v -> keys_heap (EnvKeys w).2 !! k = Some v)
  /\ (forall (s3 : T) name config, Bucket_S3 (NewBucket s3 name config).1 = s3)
  /\ (forall (b : Bucket T) req p w,
        keys_heap (Bucket_Sign sign b req w).2 = keys_heap w
        /\ keys_heap (Bucket_delete sign b p w).2 = keys_heap w
        /\ keys_heap (Bucket_Delete sign b p w).2 = keys_heap w).
Proof.
  intros Hsign. split; [|split; [|split]].
  - intros id secret token w.
    destruct (Keys_new_lookup (mkKeys id secret token) w) as (k & Hk & _ & Hh).
    exists k, (Keys_new (mkKeys id secret token) w).2. split; [exact Hk|].
    unfold Keys_AccessKeyID, Keys_SecretAccessKey, Keys_SessionToken, bind, Keys_load.
    rewrite Hh, lookup_insert_eq. repeat split.
  - intros w k v Hk. unfold EnvKeys, bind, os_Getenv. simpl.
    assert (Hne : fresh (dom (keys_heap w)) ≠ k).
    { intros <-. pose proof (is_fresh (dom (keys_heap w))) as Hf.
      apply Hf, elem_of_dom. eauto. }
    destruct (bool_decide _ || bool_decide _); simpl;
      rewrite lookup_insert_ne by exact Hne; exact Hk.
  - reflexivity.
  - intros b req p w. split; [|split].
    + apply keeps_Sign, Hsign.
    + apply keeps_delete, Hsign.
    + apply keeps_Delete, Hsign.
Qed.

Section KeysExamples.
Import plain.

Lemma Keys_immutable_witness :
  keys_heap (Bucket_Delete (signer_sign signature)
               (S3_Bucket (New "" 1%positive) "bucket") "a" world0).2
  = keys_heap world0
  /\ Keys_AccessKeyID 1%positive
       (Bucket_Delete (signer_sign signature)
          (S3_Bucket (New "" 1%positive) "bucket") "a" world0).2
     = (Ret "AKID",
        (Bucket_Delete (signer_sign signature)
           (S3_Bucket (New "" 1%positive) "bucket") "a" world0).2).
Proof.
  pose proof (Keys_immutable (signer_sign signature) (keeps_signer_sign_S3 signature))
    as (_ & _ & _ & Hf).
  destruct (Hf (S3_Bucket (New "" 1%positive) "bucket")
               (http.mkRequest "DELETE" None None None 0 "") "a" world0) as (_ & _ & HD).
  split; [exact HD|]. vm_compute. reflexivity.
Defined.

End KeysExamples.

(** ** Signing *)

Lemma Set_User_Agent (h : http.Header) :
  http.Set_ h "User-Agent" "S3Gof3r" = <["User-Agent" := ["S3Gof3r"]]> h.
Proof. reflexivity. Qed.

(** C7. [Bucket.Sign] hands the signing code the request with its header
    set replaced by an empty one if it was nil and User-Agent set to
    "S3Gof3r" in it.  With the signer of the specification, the signed
    request differs from the original in its header set alone: method,
    URL, body, content length and host are those of the original, and the
    header set is the prepared one with the authentication headers set. *)
Theorem Sign_only_headers `{Elsewhere} {T : Type} `{!S3ConfigSource T}
    (sign : signer T -> M Request)
    (signature : Z -> Request -> string -> string -> Keys -> list (string * string))
    (b : Bucket T) (req req' : Request) (w w' : World) :
  Bucket_Sign (signer_sign signature) b req w = (Ret req', w') ->
  Bucket_Sign sign b req w
  = sign (mkSigner (clock w)
            (with_Header req
               (Some (<["User-Agent" := ["S3Gof3r"]]> (default ∅ (http.Header_ req)))))
            (Bucket_S3 b)) w
  /\ http.Method req' = http.Method req
  /\ http.URL req' = http.URL req
  /\ http.Body req' = http.Body req
  /\ http.ContentLength req' = http.ContentLength req
  /\ http.Host req' = http.Host req
  /\ (exists auth,
        http.Header_ req'
        = Some (set_all (<["User-Agent" := ["S3Gof3r"]]> (default ∅ (http.Header_ req))) auth)).
Proof.
  intros Hs.
  assert (Hprep : forall sg, Bucket_Sign sg b req w
    = sg (mkSigner (clock w)
            (with_Header req
               (Some (<["User-Agent" := ["S3Gof3r"]]> (default ∅ (http.Header_ req)))))
            (Bucket_S3 b)) w).
  { intros sg. unfold Bucket_Sign, bind, time_Now. rewrite Set_User_Agent.
    destruct (http.Header_ req) eqn:Eh; [|reflexivity].
    simpl. rewrite Eh. reflexivity. }
  split; [apply Hprep|].
  rewrite Hprep in Hs. unfold signer_sign, bind in Hs. simpl in Hs.
  destruct (Region (Bucket_S3 b) w) as [[r|?] w1] eqn:Er; [|discriminate].
  destruct (AccessKeyID (Bucket_S3 b) w1) as [[id|?] w2] eqn:Ei; [|discriminate].
  destruct (SecretAccessKey (Bucket_S3 b) w2) as [[sk|?] w3] eqn:Ek; [|discriminate].
  destruct (SessionToken (Bucket_S3 b) w3) as [[tk|?] w4] eqn:Et; [|discriminate].
  unfold ret in Hs. injection Hs as <- <-.
  repeat split; try reflexivity.
  eexists. reflexivity.
Qed.

Section SignExamples.
Import plain.

Lemma Sign_only_headers_witness :
  exists req',
    Bucket_Sign (signer_sign signature) (S3_Bucket (New "" 1%positive) "bucket")
      (http.mkRequest "DELETE" None None (Some "body") 4 "host") world0
    = (Ret req', world0)
    /\ http.Method req' = "DELETE" /\ http.Body req' = Some "body"
    /\ (h ← http.Header_ req'; (h : http.Header) !! "User-Agent") = Some ["S3Gof3r"].
Proof.
  eexists. split; [vm_compute; reflexivity|].
  pose proof (Sign_only_headers (signer_sign signature) signature
                (S3_Bucket (New "" 1%positive) "bucket")
                (http.mkRequest "DELETE" None None (Some "body") 4 "host") _ world0 world0
                eq_refl) as (_ & Hm & _ & Hb & _).
  split; [exact Hm|]. split; [exact Hb|]. vm_compute. reflexivity.
Defined.

End SignExamples.

(** ** Creating streams *)

(** C8. [GetReader] refuses the empty path: it returns no reader, no
    headers and the error "empty path requested", whatever the url parser
    and the stream constructor would do, and the world is untouched (no
    request is dispatched).  [PutWriter] has no such check: whenever a url
    can be built for the empty path, it goes on to create the writer for
    that url. *)
Theorem GetReader_empty_path `{Elsewhere} {T : Type} `{!S3ConfigSource T}
    {Reader Writer : Type}
    (newGetter : url.URL -> Bucket T -> M (option Reader * option http.Header * error))
    (newPutter : url.URL -> option http.Header -> Bucket T -> M (option Writer * error))
    (b : Bucket T) (h : option http.Header) (w : World) :
  Bucket_GetReader newGetter b "" w
  = (Ret (None, None, Some (errors_New "empty path requested")), w)
  /\ (forall u, Bucket_url b "" = inl u ->
        Bucket_PutWriter newPutter b "" h w = newPutter u h b w).
Proof.
  split; [reflexivity|].
  intros u Hu. unfold Bucket_PutWriter. rewrite Hu. reflexivity.
Qed.

Section StreamExamples.
Import plain.

Lemma GetReader_empty_path_witness :
  Bucket_GetReader (newGetter (signer_sign signature))
    (S3_Bucket (New "" 1%positive) "bucket") "" world0
  = (Ret (None, None, Some (errors_New "empty path requested")), world0)
  /\ match Bucket_PutWriter newPutter (S3_Bucket (New "" 1%positive) "bucket") "" None world0 with
     | (Ret (Some p, None), w) =>
         url.Host (putter_url _ p) = "bucket.s3.amazonaws.com"
         /\ url.Path (putter_url _ p) = "/" /\ sent w = []
     | _ => False
     end.
Proof.
  pose proof (GetReader_empty_path (newGetter (signer_sign signature)) newPutter
                (S3_Bucket (New "" 1%positive) "bucket") None world0) as [Hg Hp].
  split; [exact Hg|].
  erewrite Hp by (vm_compute; reflexivity).
  vm_compute. repeat split.
Defined.

End StreamExamples.

Lemma invalid_not_valid `{GoEnv} (c : Config) :
  PartSize c <= 0 \/ Concurrency c = 0 -> Config_valid c = false.
Proof.
  intros Hc. unfold Config_valid.
  destruct Hc as [Hp|Hz].
  - rewrite (bool_decide_eq_false_2 (0 < PartSize c)) by lia.
    rewrite andb_false_r. reflexivity.
  - rewrite (bool_decide_eq_false_2 (1 <= Concurrency c)) by lia. reflexivity.
Qed.

Lemma valid_bounds `{GoEnv} (c : Config) :
  Config_valid c = true -> 0 < PartSize c /\ Concurrency c ≠ 0.
Proof.
  unfold Config_valid. intros Hv.
  apply andb_prop in Hv as [Hv _]. apply andb_prop in Hv as [Hc Hp].
  apply bool_decide_eq_true_1 in Hc, Hp. lia.
Qed.

(** C3. With the stream constructors of the specification, a bucket whose
    configuration has a non-positive part size or zero concurrency gets no
    stream: [GetReader] and [PutWriter] return an error, for every path,
    and the world is untouched (nothing was dispatched, no transfer
    began).  A stream that was created holds the configuration of its
    bucket, checked, with positive part size and nonzero concurrency: the
    transfer itself has no invalid configuration to report. *)
Theorem invalid_config_rejected `{Elsewhere} {T : Type} `{!S3ConfigSource T}
    (sign : signer T -> M Request) (b : Bucket T) :
  (PartSize (Bucket_Config b) <= 0 \/ Concurrency (Bucket_Config b) = 0 ->
   forall path h w,
     (exists e, Bucket_GetReader (newGetter sign) b path w = (Ret (None, None, Some e), w))
     /\ (exists e, Bucket_PutWriter newPutter b path h w = (Ret (None, Some e), w)))
  /\ (forall path h w,
        match (Bucket_GetReader (newGetter sign) b path w).1 with
        | Ret (g, _, _) => stream_config_ok (Bucket_Config b) (getter_c <$> g)
        | Panic _ => True
        end
        /\ match (Bucket_PutWriter newPutter b path h w).1 with
           | Ret (p, _) => stream_config_ok (Bucket_Config b) (putter_c <$> p)
           | Panic _ => True
           end).
Proof.
  split.
  - intros Hc path h w. apply invalid_not_valid in Hc.
    unfold Bucket_GetReader, Bucket_PutWriter, newGetter, newPutter.
    rewrite Hc. simpl.
    split.
    + destruct (bool_decide (path = "")); [eexists; reflexivity|].
      destruct (Bucket_url b path); eexists; reflexivity.
    + destruct (Bucket_url b path); eexists; reflexivity.
  - intros path h w.
    unfold Bucket_GetReader, Bucket_PutWriter, newGetter, newPutter.
    destruct (Config_valid (Bucket_Config b)) eqn:Hv; simpl.
    + apply valid_bounds in Hv. split.
      * destruct (bool_decide (path = "")); [exact I|].
        destruct (Bucket_url b path) as [u|e]; [|exact I].
        unfold bind. destruct (Bucket_Sign sign b _ w) as [[r|?] w1]; [|exact I].
        destruct (Bucket_Do b r w1) as [[[resp|e]|?] w2]; simpl; try exact I.
        destruct (bool_decide (http.StatusCode resp = 404)); [exact I|].
        destruct (bool_decide (200 <= http.StatusCode resp < 300)); simpl; [|exact I].
        split; [reflexivity|exact Hv].
      * destruct (Bucket_url b path) as [u|e]; simpl; [|exact I].
        split; [reflexivity|exact Hv].
    + split.
      * destruct (bool_decide (path = "")); [exact I|].
        destruct (Bucket_url b path); exact I.
      * destruct (Bucket_url b path); exact I.
Qed.

Section StreamConfigExamples.
Import plain.

Lemma invalid_config_rejected_witness :
  let b := mkBucket (New "" 1%positive) "bucket"
             (mkConfig _ (ClientWithTimeout defaultClientTimeout) 10 0 10 true "https" false) in
  (exists e, Bucket_GetReader (newGetter (signer_sign signature)) b "key" world0
             = (Ret (None, None, Some e), world0))
  /\ (exists e, Bucket_PutWriter newPutter b "key" None world0
                = (Ret (None, Some e), world0)).
Proof.
  intros b.
  exact (proj1 (invalid_config_rejected (signer_sign signature) b)
               (or_introl (Z.le_refl 0)) "key" None world0).
Defined.

(** With a valid configuration the download stream is created, after one
    signed GET went out. *)
Example GetReader_valid :
  match Bucket_GetReader (newGetter (signer_sign signature))
          (S3_Bucket (New "" 1%positive) "bucket") "key" world0 with
  | (Ret (Some g, Some _, None), w) =>
      url.Path (getter_url _ g) = "/key"
      /\ (fun req => (http.Method req, url.Path <$> http.URL req)) <$> sent w
         = [("GET", Some "/key")]
  | _ => False
  end.
Proof. vm_compute. split; reflexivity. Qed.

End StreamConfigExamples.

(** ** Building urls *)

Lemma Split_head_no_sep (s : string) (sep : ascii) :
  sep ∉ strings.bytes (hd "" (strings.Split s sep)).
Proof.
  induction s as [|c s IH]; simpl.
  - apply not_elem_of_nil.
  - destruct (decide (c = sep)) as [->|Hne]; simpl.
    + apply not_elem_of_nil.
    + destruct (strings.Split s sep) as [|x xs]; simpl in *.
      * intros Hin. apply elem_of_cons in Hin as [->|Hin]; [congruence|].
        by apply not_elem_of_nil in Hin.
      * intros Hin. apply elem_of_cons in Hin as [->|Hin]; [congruence|]. by apply IH.
Qed.

Lemma Split_not_nil (s : string) (sep : ascii) : strings.Split s sep ≠ [].
Proof.
  destruct s as [|c s]; simpl; [discriminate|].
  destruct (decide (c = sep)); [discriminate|].
  destruct (strings.Split s sep); discriminate.
Qed.

Lemma Encode_single (key value : string) :
  url.Encode (url.Add ∅ key value) = url.QueryEscape key +:+ "=" +:+ url.QueryEscape value.
Proof.
  unfold url.Encode, url.Add. rewrite lookup_empty. simpl.
  rewrite insert_empty, map_to_list_singleton. simpl.
  rewrite lookup_singleton_eq. reflexivity.
Qed.

Lemma Split_head_prefix (s : string) (sep : ascii) :
  s = hd "" (strings.Split s sep)
  \/ exists rest, s = hd "" (strings.Split s sep) +:+ String sep rest.
Proof.
  induction s as [|c s IH]; simpl; [left; reflexivity|].
  destruct (decide (c = sep)) as [->|Hne]; simpl.
  - right. exists s. reflexivity.
  - pose proof (Split_not_nil s sep) as Hnn.
    destruct (strings.Split s sep) as [|x xs]; [congruence|]. simpl in *.
    destruct IH as [->|[rest ->]]; [left; reflexivity|].
    right. exists rest. reflexivity.
Qed.

Lemma Contains_byte (s : string) (c : ascii) :
  strings.Contains s (String c "") = true <-> c ∈ strings.bytes s.
Proof.
  induction s as [|x s IH]; simpl.
  - split; [discriminate|]. intros Hin. by apply not_elem_of_nil in Hin.
  - rewrite elem_of_cons, <- IH. destruct (ascii_dec c x) as [->|Hne]; simpl.
    + split; [by left|]. intros _. destruct s; reflexivity.
    + split; [by right|]. intros [?|?]; congruence.
Qed.

(** C9, as the code has it.  A bucket whose name contains a period is
    addressed in path style whatever the PathStyle flag: the host is the
    domain of the endpoint and the path is [path.Clean] of /bucket/key.
    A bucket without a period and with PathStyle off is addressed in
    virtual-host style: the host is [path.Clean] of the domain for the
    bucket and the path is [path.Clean] of /key.  The key is the given
    path, cut at its first question mark when a version was found in its
    query. *)
Theorem url_addressing `{Elsewhere} {T : Type} `{!S3ConfigSource T}
    (b : Bucket T) (bPath : string) (purl : url.URL) :
  url_Parse bPath = inl purl ->
  exists u,
    Bucket_url b bPath = inl u
    /\ ("."%char ∈ strings.bytes (Bucket_Name b) ->
          url.Host u = Domain (Bucket_S3 b)
          /\ url.Path u
             = path.Clean ("/" +:+ Bucket_Name b +:+ "/" +:+ key_of bPath purl))
    /\ ("."%char ∉ strings.bytes (Bucket_Name b) ->
        PathStyle (Bucket_Config b) = false ->
          url.Host u = path.Clean (DomainForBucket (Bucket_S3 b) (Bucket_Name b))
          /\ url.Path u = path.Clean ("/" +:+ key_of bPath purl)).
Proof.
  intros Hp. unfold Bucket_url, key_of. rewrite Hp.
  destruct (bool_decide (url.Get (URL_Query purl) versionParam ≠ ""));
    (destruct (strings.Contains (Bucket_Name b) ".") eqn:Hc;
     [ apply Contains_byte in Hc
     | assert (Hn : "."%char ∉ strings.bytes (Bucket_Name b))
         by (rewrite <- Contains_byte, Hc; discriminate) ]);
    simpl; try (destruct (PathStyle (Bucket_Config b)) eqn:Hps; simpl);
    eexists; (split; [reflexivity|]); simpl;
    split; intros; try contradiction; try discriminate; split; reflexivity.
Qed.

(** C10. When the query of the given path has a non-empty versionId (the
    first one, as [Get] reads it), the url that is built has exactly that
    parameter for its query, re-encoded, whatever else the query of the
    path held; and its path is made of the given path up to its first
    question mark, the query left out. *)
Theorem url_versionId `{Elsewhere} {T : Type} `{!S3ConfigSource T}
    (b : Bucket T) (bPath : string) (purl : url.URL) (v : string) :
  url_Parse bPath = inl purl ->
  url.Get (URL_Query purl) versionParam = v ->
  v ≠ "" ->
  exists u key,
    Bucket_url b bPath = inl u
    /\ url.RawQuery u = "versionId=" +:+ url.QueryEscape v
    /\ url.RawQuery u = url.Encode {[ "versionId" := [v] ]}
    /\ key = hd "" (strings.Split bPath "?")
    /\ (bPath = key \/ exists rest, bPath = key +:+ String "?" rest)
    /\ ("?"%char ∉ strings.bytes key)
    /\ (url.Path u = path.Clean ("/" +:+ Bucket_Name b +:+ "/" +:+ key)
        \/ url.Path u = path.Clean ("/" +:+ key)).
Proof.
  intros Hp Hv Hne. unfold Bucket_url. rewrite Hp, Hv.
  rewrite (bool_decide_eq_true_2 _ Hne).
  pose proof (Encode_single versionParam v) as He.
  assert (Hs : url.Add ∅ versionParam v = {[ "versionId" := [v] ]}).
  { unfold url.Add. rewrite lookup_empty. simpl. apply insert_empty. }
  destruct (strings.Contains (Bucket_Name b) "." || PathStyle (Bucket_Config b));
    eexists _, (hd "" (strings.Split bPath "?"));
    (split; [reflexivity|]); simpl;
    (split; [exact He|]); (split; [rewrite <- Hs; reflexivity|]);
    (split; [reflexivity|]);
    (split; [apply Split_head_prefix|]);
    (split; [apply Split_head_no_sep|]); [left|right]; reflexivity.
Qed.

Section UrlExamples.
Import plain.

(** The path of a url is cleaned: a trailing slash and doubled slashes of
    the key do not reach it, so it is not /bucket/key, nor /key, as they
    stand. *)
Lemma url_path_verbatim_counterexample :
  (exists u,
      Bucket_url (mkBucket (New "" 1%positive) "my.bucket" DefaultConfig) "dir/" = inl u
      /\ "."%char ∈ strings.bytes "my.bucket"
      /\ url.Host u = "s3.amazonaws.com"
      /\ url.Path u = "/my.bucket/dir"
      /\ url.Path u ≠ ("/" +:+ "my.bucket" +:+ "/" +:+ "dir/"))
  /\ (exists u,
        Bucket_url (mkBucket (New "" 1%positive) "bucket" DefaultConfig) "a//b" = inl u
        /\ ("."%char ∉ strings.bytes "bucket")
        /\ PathStyle DefaultConfig = false
        /\ url.Host u = "bucket.s3.amazonaws.com"
        /\ url.Path u = "/a/b"
        /\ url.Path u ≠ ("/" +:+ "a//b")).
Proof.
  split; eexists; (split; [vm_compute; reflexivity|]).
  - split; [apply Contains_byte; reflexivity|]. repeat split. discriminate.
  - split; [rewrite <- Contains_byte; discriminate|]. repeat split. discriminate.
Defined.

Lemma url_addressing_witness :
  exists u,
    Bucket_url (mkBucket (New "" 1%positive) "my.bucket" DefaultConfig)
      "dir//key?versionId=3" = inl u
    /\ url.Host u = "s3.amazonaws.com"
    /\ url.Path u = "/my.bucket/dir/key".
Proof.
  edestruct (url_addressing (mkBucket (New "" 1%positive) "my.bucket" DefaultConfig)
               "dir//key?versionId=3") as (u & Hu & Hdot & _);
    [vm_compute; reflexivity|].
  exists u. split; [exact Hu|].
  destruct Hdot as [Hh Hp]; [apply Contains_byte; reflexivity|].
  split; [exact Hh|]. rewrite Hp. vm_compute. reflexivity.
Defined.

Lemma url_versionId_witness :
  exists u,
    Bucket_url (S3_Bucket (New "" 1%positive) "bucket") "dir/key?x=1&versionId=a%2Fb+c&y=2"
    = inl u
    /\ url.RawQuery u = "versionId=a%2Fb+c"
    /\ url.Path u = "/dir/key".
Proof.
  edestruct (url_versionId (S3_Bucket (New "" 1%positive) "bucket")
               "dir/key?x=1&versionId=a%2Fb+c&y=2") as (u & key & Hu & Hq & _);
    [vm_compute; reflexivity | reflexivity | vm_compute; discriminate |].
  exists u. split; [exact Hu|].
  vm_compute in Hu. injection Hu as <-. split; reflexivity.
Defined.

End UrlExamples.

(** ** The query of a built url, read back *)

Lemma QueryEscape_cons c s :
  url.QueryEscape (String c s) = url.escape_byte c +:+ url.QueryEscape s.
Proof.
  unfold url.escape_byte. simpl.
  destruct (url.unreserved c); [reflexivity|].
  destruct (decide (c = " "%char)); reflexivity.
Qed.

Lemma QueryUnescape_escape_byte c t :
  plain.QueryUnescape (url.escape_byte c +:+ t) = String c <$> plain.QueryUnescape t.
Proof. destruct c as [[] [] [] [] [] [] [] []]; reflexivity. Qed.

Lemma QueryUnescape_QueryEscape (s : string) :
  plain.QueryUnescape (url.QueryEscape s) = Some s.
Proof.
  induction s as [|c s IH]; [reflexivity|].
  rewrite QueryEscape_cons, QueryUnescape_escape_byte, IH. reflexivity.
Qed.

Lemma escape_byte_bytes c : forallb url.escaped_byte (strings.bytes (url.escape_byte c)) = true.
Proof. destruct c as [[] [] [] [] [] [] [] []]; reflexivity. Qed.

Lemma bytes_append s t : strings.bytes (s +:+ t) = strings.bytes s ++ strings.bytes t.
Proof.
  induction s as [|c s IH]; [reflexivity|].
  change (String c s +:+ t) with (String c (s +:+ t)). simpl. f_equal. exact IH.
Qed.

Lemma QueryEscape_bytes s : forallb url.escaped_byte (strings.bytes (url.QueryEscape s)) = true.
Proof.
  induction s as [|c s IH]; [reflexivity|].
  rewrite QueryEscape_cons, bytes_append, forallb_app, escape_byte_bytes, IH. reflexivity.
Qed.

Lemma Split_no_sep s sep : sep ∉ strings.bytes s -> strings.Split s sep = [s].
Proof.
  induction s as [|c s IH]; simpl; [reflexivity|].
  intros Hn. apply not_elem_of_cons in Hn as [Hne Hn].
  destruct (decide (c = sep)); [congruence|]. rewrite IH by exact Hn. reflexivity.
Qed.

Lemma Contains_false s c : c ∉ strings.bytes s -> strings.Contains s (String c "") = false.
Proof.
  induction s as [|x s IH]; simpl; [reflexivity|].
  intros Hn. apply not_elem_of_cons in Hn as [Hne Hn].
  rewrite IH by exact Hn. destruct (ascii_dec c x); [congruence|reflexivity].
Qed.

Lemma cut_no_sep s sep : sep ∉ strings.bytes s -> plain.cut s sep = (s, None).
Proof.
  induction s as [|c s IH]; simpl; [reflexivity|].
  intros Hn. apply not_elem_of_cons in Hn as [Hne Hn].
  destruct (decide (c = sep)); [congruence|]. rewrite IH by exact Hn. reflexivity.
Qed.

Lemma escaped_not c s :
  url.escaped_byte c = false -> c ∉ strings.bytes (url.QueryEscape s).
Proof.
  intros Hc Hin. pose proof (QueryEscape_bytes s) as Hall.
  rewrite forallb_forall in Hall. apply list_elem_of_In in Hin.
  rewrite (Hall _ Hin) in Hc. discriminate.
Qed.

Lemma Query_Encode_versionId (u : url.URL) (v : string) :
  url.RawQuery u = url.Encode {[ "versionId" := [v] ]} ->
  plain.Query u = {[ "versionId" := [v] ]}.
Proof.
  intros Hq. unfold plain.Query. rewrite Hq. clear Hq.
  assert (He : url.Encode {[ "versionId" := [v] ]} = "versionId=" +:+ url.QueryEscape v).
  { unfold url.Encode. rewrite map_to_list_singleton. simpl.
    rewrite lookup_singleton_eq. reflexivity. }
  rewrite He.
  assert (Hb : forall c, url.escaped_byte c = false ->
            c ∉ strings.bytes ("versionId=" +:+ url.QueryEscape v) \/ c = "="%char).
  { intros c Hc. destruct (decide (c = "="%char)) as [|Hne]; [by right|left].
    rewrite bytes_append. intros Hin. apply elem_of_app in Hin as [Hin|Hin].
    - assert (Hall : forallb (fun x => url.escaped_byte x || bool_decide (x = "="%char))
                       (strings.bytes "versionId=") = true) by reflexivity.
      rewrite forallb_forall in Hall. apply list_elem_of_In in Hin.
      specialize (Hall _ Hin). rewrite Hc in Hall. simpl in Hall.
      apply bool_decide_eq_true_1 in Hall. contradiction.
    - by apply (escaped_not c v). }
  rewrite Split_no_sep by (destruct (Hb "&"%char eq_refl); [done|discriminate]).
  simpl. unfold plain.parsePair.
  destruct (decide (_ = "")) as [E|_]; [discriminate|].
  rewrite Contains_false by (destruct (Hb ";"%char eq_refl); [done|discriminate]).
  change (plain.cut ("versionId=" +:+ url.QueryEscape v) "=")
    with ("versionId", Some (url.QueryEscape v)).
  simpl. rewrite QueryUnescape_QueryEscape.
  unfold url.Add. rewrite lookup_empty. simpl. apply insert_empty.
Qed.

(** With the plain parser, the query of the url built for a path with a
    version reads back as that version, alone. *)
Lemma url_versionId_roundtrip {T : Type} `{!S3ConfigSource T}
    (b : Bucket (H := plain.env) T) (bPath : string) (purl : url.URL) :
  plain.Parse bPath = inl purl ->
  url.Get (plain.Query purl) versionParam ≠ "" ->
  exists u,
    Bucket_url (H := plain.env) b bPath = inl u
    /\ plain.Query u = {[ "versionId" := [url.Get (plain.Query purl) versionParam] ]}.
Proof.
  intros Hp Hne. unfold Bucket_url. simpl. rewrite Hp.
  rewrite (bool_decide_eq_true_2 _ Hne).
  assert (Hs : forall v, url.Add ∅ versionParam v = {[ "versionId" := [v] ]}).
  { intros v. unfold url.Add. rewrite lookup_empty. simpl. apply insert_empty. }
  destruct (strings.Contains (Bucket_Name b) "." || PathStyle (Bucket_Config b));
    eexists; (split; [reflexivity|]); apply Query_Encode_versionId; simpl;
    rewrite Hs; reflexivity.
Qed.

(** * Further properties *)

Lemma run_Star {R} r s caps (k : list ascii -> regexp.Captures -> option R) :
  regexp.run (regexp.Star r) s caps k = star_loop (regexp.run r) k (length s) s caps.
Proof. reflexivity. Qed.

Lemma star_class_greedy {R} (f : ascii -> bool) (k : list ascii -> regexp.Captures -> option R)
    (l1 l2 : list ascii) caps x fuel :
  forallb f l1 = true ->
  stops f l2 ->
  (length l1 <= fuel)%nat ->
  k l2 caps = Some x ->
  star_loop (regexp.run (regexp.CharClass f)) k fuel (l1 ++ l2) caps = Some x.
Proof.
  revert fuel. induction l1 as [|c l1 IH]; intros fuel Hall Hstop Hfuel Hk; simpl in *.
  - destruct fuel as [|fuel]; simpl; [exact Hk|].
    destruct l2 as [|d l2]; simpl in *; [exact Hk|]. rewrite Hstop. exact Hk.
  - apply andb_prop in Hall as [Hc Hall].
    destruct fuel as [|fuel]; [lia|]. simpl. rewrite Hc.
    rewrite bool_decide_eq_true_2 by lia.
    rewrite IH by (auto; lia). reflexivity.
Qed.

Lemma bytes_of_bytes l : strings.bytes (strings.of_bytes l) = l.
Proof. induction l as [|c l IH]; simpl; [reflexivity|]. f_equal. exact IH. Qed.

Lemma of_bytes_bytes s : strings.of_bytes (strings.bytes s) = s.
Proof. induction s as [|c s IH]; simpl; [reflexivity|]. f_equal. exact IH. Qed.

Lemma consumed_app l1 l2 : regexp.consumed (l1 ++ l2) l2 = strings.of_bytes l1.
Proof.
  unfold regexp.consumed. rewrite length_app.
  replace (length l1 + length l2 - length l2)%nat with (length l1) by lia.
  rewrite take_app_length. reflexivity.
Qed.

(** One or more bytes of a class, captured: the match is the longest
    run of the class when what follows is accepted. *)
Lemma run_capture_plus {R} i (f : ascii -> bool)
    (k : list ascii -> regexp.Captures -> option R) c l1 l2 caps x :
  f c = true -> forallb f l1 = true -> stops f l2 ->
  k l2 (<[i := strings.of_bytes (c :: l1)]> caps) = Some x ->
  regexp.run (regexp.Capture i (regexp.Plus (regexp.CharClass f))) (c :: l1 ++ l2) caps k
  = Some x.
Proof.
  intros Hc Hall Hstop Hk.
  change (regexp.run (regexp.Capture i (regexp.Plus (regexp.CharClass f))) (c :: l1 ++ l2) caps k)
    with (if f c
          then star_loop (regexp.run (regexp.CharClass f))
                 (fun s' caps' => k s' (<[i := regexp.consumed (c :: l1 ++ l2) s']> caps'))
                 (length (l1 ++ l2)) (l1 ++ l2) caps
          else None).
  rewrite Hc. apply star_class_greedy; [exact Hall|exact Hstop|rewrite length_app; lia|].
  cbv beta. change (c :: l1 ++ l2) with ((c :: l1) ++ l2).
  rewrite consumed_app. exact Hk.
Qed.

Lemma regionMatcher_prefix {R} (sepc : ascii) (t : list ascii) caps
    (k : list ascii -> regexp.Captures -> option R) :
  sepc = "-"%char \/ sepc = "."%char ->
  regexp.run regionMatcher ("s"%char :: "3"%char :: sepc :: t) caps k
  = regexp.run (regexp.Capture 1 (regexp.Plus (regexp.CharClass (lower_digit_or "-")))) t caps
      (fun s' caps' =>
         regexp.run
           (foldr regexp.Concat
              (regexp.Capture 2 (regexp.Star (regexp.CharClass (lower_digit_or "."))))
              [regexp.AnyCharNotNL; regexp.Literal "amazonaws";
               regexp.AnyCharNotNL; regexp.Literal "com"]) s' caps' k).
Proof. intros [->| ->]; reflexivity. Qed.

Lemma regionMatcher_suffix {R} (t : list ascii) caps
    (k : list ascii -> regexp.Captures -> option R) :
  regexp.run
    (foldr regexp.Concat
       (regexp.Capture 2 (regexp.Star (regexp.CharClass (lower_digit_or "."))))
       [regexp.AnyCharNotNL; regexp.Literal "amazonaws";
        regexp.AnyCharNotNL; regexp.Literal "com"])
    (strings.bytes ".amazonaws.com" ++ t) caps k
  = regexp.run (regexp.Capture 2 (regexp.Star (regexp.CharClass (lower_digit_or ".")))) t caps k.
Proof. reflexivity. Qed.

Lemma class_prefix (f : ascii -> bool) (l : list ascii) :
  exists l1 l2, l = l1 ++ l2 /\ forallb f l1 = true /\ stops f l2.
Proof.
  induction l as [|c l (l1 & l2 & -> & Hall & Hstop)].
  - exists [], []. repeat split.
  - destruct (f c) eqn:Hc.
    + exists (c :: l1), l2. simpl. rewrite Hc, Hall. repeat split. exact Hstop.
    + exists [], (c :: l1 ++ l2). repeat split. exact Hc.
Qed.

(** Any number of bytes of a class, captured: the longest run of the
    class is taken when what follows is accepted. *)
Lemma run_capture_star {R} i (f : ascii -> bool)
    (k : list ascii -> regexp.Captures -> option R) l1 l2 caps x :
  forallb f l1 = true -> stops f l2 ->
  k l2 (<[i := strings.of_bytes l1]> caps) = Some x ->
  regexp.run (regexp.Capture i (regexp.Star (regexp.CharClass f))) (l1 ++ l2) caps k = Some x.
Proof.
  intros Hall Hstop Hk.
  change (regexp.run (regexp.Capture i (regexp.Star (regexp.CharClass f))) (l1 ++ l2) caps k)
    with (star_loop (regexp.run (regexp.CharClass f))
            (fun s' caps' => k s' (<[i := regexp.consumed (l1 ++ l2) s']> caps'))
            (length (l1 ++ l2)) (l1 ++ l2) caps).
  apply star_class_greedy; [exact Hall|exact Hstop|rewrite length_app; lia|].
  rewrite consumed_app. exact Hk.
Qed.

Lemma regional_bytes sepc r rest :
  strings.bytes (regional sepc r rest)
  = "s"%char :: "3"%char :: sepc
      :: strings.bytes r ++ strings.bytes ".amazonaws.com" ++ strings.bytes rest.
Proof.
  unfold regional.
  change ("s3" +:+ String sepc (r +:+ ".amazonaws.com" +:+ rest))
    with (String "s" (String "3" (String sepc (r +:+ ".amazonaws.com" +:+ rest)))).
  simpl. rewrite !bytes_append. reflexivity.
Qed.

Lemma regionMatcher_regional sepc r rest :
  sepc = "-"%char \/ sepc = "."%char ->
  r ≠ "" ->
  forallb (lower_digit_or "-") (strings.bytes r) = true ->
  exists whole group2,
    regionMatcher_FindStringSubmatch (regional sepc r rest) = [whole; r; group2].
Proof.
  intros Hsep Hne Hall.
  unfold regionMatcher_FindStringSubmatch, regexp.FindStringSubmatch.
  pose proof (regional_bytes sepc r rest) as Hs.
  destruct (class_prefix (lower_digit_or ".") (strings.bytes rest))
    as (t1 & t2 & Ht & Ht1 & Ht2).
  rewrite Ht in Hs.
  destruct (strings.bytes r) as [|c l1] eqn:Hr.
  { destruct r; [congruence|discriminate]. }
  assert (Hof : strings.of_bytes (c :: l1) = r) by (rewrite <- Hr; apply of_bytes_bytes).
  simpl in Hall. apply andb_prop in Hall as [Hc Hall].
  assert (Hrun : regexp.run regionMatcher (strings.bytes (regional sepc r rest)) ∅
                   (fun s' caps => Some (s', caps))
                 = Some (t2, <[2%nat := strings.of_bytes t1]> (<[1%nat := r]> ∅))).
  { rewrite Hs, regionMatcher_prefix by exact Hsep.
    apply run_capture_plus; [exact Hc|exact Hall|reflexivity|].
    rewrite Hof, regionMatcher_suffix.
    apply run_capture_star; [exact Ht1|exact Ht2|reflexivity]. }
  destruct (strings.bytes (regional sepc r rest)) as [|x l] eqn:Hb; [discriminate|].
  unfold regexp.search. rewrite Hrun. simpl.
  rewrite lookup_insert_ne, lookup_insert_eq, lookup_insert_eq by discriminate.
  eexists _, _. reflexivity.
Qed.

(** X3. For a domain made of s3, a dash or a dot, a non-empty region of
    lower-case letters, digits and dashes, .amazonaws.com and anything
    after it, [Region] returns that region, whatever AWS_REGION holds; the
    two literal domains with a dash (external-1, accelerate) excepted. *)
Theorem Region_regional_endpoint (sepc : ascii) (r rest : string) (k : loc) (w : World) :
  sepc = "-"%char \/ sepc = "."%char ->
  r ≠ "" ->
  forallb (lower_digit_or "-") (strings.bytes r) = true ->
  regional sepc r rest ≠ "s3-external-1.amazonaws.com" ->
  regional sepc r rest ≠ "s3-accelerate.amazonaws.com" ->
  S3_Region (New (regional sepc r rest) k) w = (Ret r, w).
Proof.
  intros Hsep Hne Hall Hext Hacc.
  destruct (regionMatcher_regional sepc r rest Hsep Hne Hall) as (whole & g2 & Hm).
  assert (Hus : regional sepc r rest ≠ "s3.amazonaws.com").
  { intros E. rewrite E in Hm. vm_compute in Hm. discriminate. }
  assert (Hd : S3_Domain (New (regional sepc r rest) k) = regional sepc r rest)
    by reflexivity.
  unfold S3_Region, bind, os_Getenv. rewrite Hd.
  rewrite (bool_decide_eq_false_2 _ Hus), (bool_decide_eq_false_2 _ Hext),
          (bool_decide_eq_false_2 _ Hacc), Hm.
  reflexivity.
Qed.

Lemma Region_regional_endpoint_witness :
  S3_Region (New "s3.cn-north-1.amazonaws.com.cn" 1%positive)
    (plain.setenv "AWS_REGION" "eu-central-1" plain.world0)
  = (Ret "cn-north-1", plain.setenv "AWS_REGION" "eu-central-1" plain.world0).
Proof.
  apply (Region_regional_endpoint "." "cn-north-1" ".cn" 1%positive);
    [right; reflexivity | discriminate | reflexivity | discriminate | discriminate].
Defined.

(** X2. [Region] leaves the world as it is and panics in one situation
    only: AWS_REGION is empty and the domain is the accelerate one or one
    the pattern does not match (the two us-east-1 domains never panic).
    The message is then "can't find endpoint region": the index into the
    groups is never out of range. *)
Theorem Region_panics_iff (s : S3) (w : World) :
  (S3_Region s w).2 = w
  /\ ((S3_Region s w).1 = Panic cant_find_region
      <-> environ w "AWS_REGION" = ""
          /\ S3_Domain s ≠ "s3.amazonaws.com"
          /\ S3_Domain s ≠ "s3-external-1.amazonaws.com"
          /\ (S3_Domain s = "s3-accelerate.amazonaws.com"
              \/ regionMatcher_FindStringSubmatch (S3_Domain s) = []))
  /\ (forall msg, (S3_Region s w).1 = Panic msg -> msg = cant_find_region).
Proof.
  unfold S3_Region, bind, os_Getenv. simpl.
  destruct (decide (S3_Domain s = "s3.amazonaws.com")) as [E1|N1].
  { rewrite (bool_decide_eq_true_2 _ E1). simpl.
    split; [reflexivity|]. split; [|discriminate].
    split; [discriminate|]. intros (_ & H & _). contradiction. }
  rewrite (bool_decide_eq_false_2 _ N1).
  destruct (decide (S3_Domain s = "s3-external-1.amazonaws.com")) as [E2|N2].
  { rewrite (bool_decide_eq_true_2 _ E2). simpl.
    split; [reflexivity|]. split; [|discriminate].
    split; [discriminate|]. intros (_ & _ & H & _). contradiction. }
  rewrite (bool_decide_eq_false_2 _ N2). simpl.
  destruct (decide (S3_Domain s = "s3-accelerate.amazonaws.com")) as [E3|N3].
  { rewrite (bool_decide_eq_true_2 _ E3).
    destruct (decide (environ w "AWS_REGION" = "")) as [Er|Nr].
    - rewrite (bool_decide_eq_true_2 _ Er). simpl.
      split; [reflexivity|]. split; [|intros msg [= <-]; reflexivity].
      split; [intros _; auto|reflexivity].
    - rewrite (bool_decide_eq_false_2 _ Nr). simpl.
      split; [reflexivity|]. split; [|discriminate].
      split; [discriminate|]. intros (H & _). contradiction. }
  rewrite (bool_decide_eq_false_2 _ N3).
  pose proof (regionMatcher_no_match (S3_Domain s)) as Hnm.
  pose proof (search_length regionMatcher 2 (strings.bytes (S3_Domain s))) as Hlen.
  fold (regexp.FindStringSubmatch regionMatcher 2 (S3_Domain s)) in Hlen.
  fold (regionMatcher_FindStringSubmatch (S3_Domain s)) in Hlen.
  destruct (regionMatcher_FindStringSubmatch (S3_Domain s)) as [|whole regions] eqn:Em.
  - simpl.
    destruct (decide (environ w "AWS_REGION" = "")) as [Er|Nr].
    + rewrite (bool_decide_eq_true_2 _ Er). simpl.
      split; [reflexivity|]. split; [|intros msg [= <-]; reflexivity].
      split; [intros _; auto|reflexivity].
    + rewrite (bool_decide_eq_false_2 _ Nr). simpl.
      split; [reflexivity|]. split; [|discriminate].
      split; [discriminate|]. intros (H & _). contradiction.
  - destruct Hlen as [Hl|Hl]; [discriminate|].
    destruct regions as [|r1 [|r2 rest]]; try discriminate.
    simpl. split; [reflexivity|]. split; [|discriminate].
    split; [discriminate|]. intros (_ & _ & _ & [H|H]); [contradiction|discriminate].
Qed.

(** X1. [EnvKeys] always returns keys: a fresh object holding the three
    variables of the environment as they are, which the accessors read
    back.  Its error is nil exactly when the identifier and the secret are
    both non-empty; the session token may be empty.  Nothing else of the
    world changes. *)
Theorem EnvKeys_error_iff (w : World) :
  exists k err w',
    EnvKeys w = (Ret (k, err), w')
    /\ (err = None <-> environ w "AWS_ACCESS_KEY_ID" ≠ "" /\ environ w "AWS_SECRET_ACCESS_KEY" ≠ "")
    /\ keys_heap w !! k = None
    /\ keys_heap w' = <[k := mkKeys (environ w "AWS_ACCESS_KEY_ID")
                                    (environ w "AWS_SECRET_ACCESS_KEY")
                                    (environ w "AWS_SESSION_TOKEN")]> (keys_heap w)
    /\ Keys_AccessKeyID k w' = (Ret (environ w "AWS_ACCESS_KEY_ID"), w')
    /\ Keys_SecretAccessKey k w' = (Ret (environ w "AWS_SECRET_ACCESS_KEY"), w')
    /\ Keys_SessionToken k w' = (Ret (environ w "AWS_SESSION_TOKEN"), w')
    /\ environ w' = environ w /\ sent w' = sent w /\ log_out w' = log_out w.
Proof.
  assert (Hf : keys_heap w !! fresh (dom (keys_heap w)) = None)
    by (apply not_elem_of_dom, is_fresh).
  assert (Hacc : forall w' v k,
            keys_heap w' !! k = Some v ->
            Keys_AccessKeyID k w' = (Ret (accessKeyID v), w')
            /\ Keys_SecretAccessKey k w' = (Ret (secretAccessKey v), w')
            /\ Keys_SessionToken k w' = (Ret (sessionToken v), w')).
  { intros w' v k Hk.
    unfold Keys_AccessKeyID, Keys_SecretAccessKey, Keys_SessionToken, bind, Keys_load.
    rewrite Hk. auto. }
  set (k := fresh (dom (keys_heap w))) in *.
  set (v := mkKeys (environ w "AWS_ACCESS_KEY_ID") (environ w "AWS_SECRET_ACCESS_KEY")
                   (environ w "AWS_SESSION_TOKEN")).
  set (w' := mkWorld (environ w) (clock w) (<[k := v]> (keys_heap w)) (sent w) (log_out w)).
  destruct (Hacc w' v k) as (Ha & Hs & Ht); [apply lookup_insert_eq|].
  exists k,
    (if bool_decide (environ w "AWS_ACCESS_KEY_ID" = "")
        || bool_decide (environ w "AWS_SECRET_ACCESS_KEY" = "")
     then Some (fmt_Errorf "keys not set in environment: AWS_ACCESS_KEY_ID, AWS_SECRET_ACCESS_KEY")
     else None), w'.
  split.
  { unfold EnvKeys, bind, os_Getenv, Keys_new. simpl. fold k v w'.
    destruct (_ || _); reflexivity. }
  split.
  { destruct (decide (environ w "AWS_ACCESS_KEY_ID" = "")) as [Ei|Ni].
    - rewrite (bool_decide_eq_true_2 _ Ei). simpl.
      split; [discriminate|]. intros [? _]. contradiction.
    - rewrite (bool_decide_eq_false_2 _ Ni). simpl.
      destruct (decide (environ w "AWS_SECRET_ACCESS_KEY" = "")) as [Es|Ns].
      + rewrite (bool_decide_eq_true_2 _ Es).
        split; [discriminate|]. intros [_ ?]. contradiction.
      + rewrite (bool_decide_eq_false_2 _ Ns). split; auto. }
  repeat split; assumption || reflexivity.
Qed.

(** X4. A non-empty path that [url.Parse] refuses is refused by every
    operation with that same error and before anything else happens: no
    stream is built, nothing is signed, dispatched or logged. *)
Theorem parse_error_propagates `{Elsewhere} {T : Type} `{!S3ConfigSource T}
    {Reader Writer : Type} (sign : signer T -> M Request)
    (newGetter : url.URL -> Bucket T -> M (option Reader * option http.Header * error))
    (newPutter : url.URL -> option http.Header -> Bucket T -> M (option Writer * error))
    (b : Bucket T) (p : string) (h : option http.Header) (e : GoError) (w : World) :
  url_Parse p = inr e ->
  p ≠ "" ->
  Bucket_url b p = inr e
  /\ Bucket_GetReader newGetter b p w = (Ret (None, None, Some e), w)
  /\ Bucket_PutWriter newPutter b p h w = (Ret (None, Some e), w)
  /\ Bucket_delete sign b p w = (Ret (Some e), w)
  /\ Bucket_Delete sign b p w = (Ret (Some e), w).
Proof.
  intros Hp Hne.
  assert (Hu : Bucket_url b p = inr e) by (unfold Bucket_url; rewrite Hp; reflexivity).
  assert (Hd : Bucket_delete sign b p w = (Ret (Some e), w))
    by (unfold Bucket_delete; rewrite Hu; reflexivity).
  repeat split; try assumption.
  - unfold Bucket_GetReader. rewrite (bool_decide_eq_false_2 _ Hne), Hu. reflexivity.
  - unfold Bucket_PutWriter. rewrite Hu. reflexivity.
  - unfold Bucket_Delete, bind. rewrite Hd. reflexivity.
Qed.

(** X5. [delete] returns nil exactly when a url could be built, signing
    returned, and the client answered the signed request with status 204:
    any other status, 200 and 404 included, is an error.  The world is
    then the one signing left, with that one request dispatched. *)
Theorem delete_nil_iff_204 `{Elsewhere} {T : Type} `{!S3ConfigSource T}
    (sign : signer T -> M Request) (b : Bucket T) (p : string) (w w' : World) :
  Bucket_delete sign b p w = (Ret None, w')
  <-> exists u r w1 resp,
        Bucket_url b p = inl u
        /\ Bucket_Sign sign b (delete_request u) w = (Ret r, w1)
        /\ Client_roundTrip (Config_Client (Bucket_Config b)) (sent w1) r = inl resp
        /\ http.StatusCode resp = 204
        /\ w' = sent_one w1 r.
Proof.
  unfold Bucket_delete, Bucket_Do, Client_Do, bind, delete_request, sent_one. split.
  - destruct (Bucket_url b p) as [u|e]; [|discriminate].
    destruct (Bucket_Sign sign b _ w) as [[r|m] w1] eqn:Hs; [|discriminate].
    destruct (Client_roundTrip _ (sent w1) r) as [resp|e] eqn:Hr; [|discriminate].
    destruct (decide (http.StatusCode resp = 204)) as [E|N].
    + rewrite (bool_decide_eq_false_2 (http.StatusCode resp ≠ 204)) by auto.
      intros [= <-]. exists u, r, w1, resp. auto.
    + rewrite (bool_decide_eq_true_2 _ N). discriminate.
  - intros (u & r & w1 & resp & Hu & Hs & Hr & Hc & ->).
    rewrite Hu, Hs, Hr.
    rewrite (bool_decide_eq_false_2 (http.StatusCode resp ≠ 204)) by auto.
    reflexivity.
Qed.

(** X6. [Delete] returns nil exactly when the delete of the object
    returned nil and, with Md5Check, the delete of /.md5/path.md5 after it
    did too; one line is then logged, last. *)
Theorem Delete_nil_iff `{Elsewhere} {T : Type} `{!S3ConfigSource T}
    (sign : signer T -> M Request) (b : Bucket T) (p : string) (w w' : World) :
  Bucket_Delete sign b p w = (Ret None, w')
  <-> exists w1 w2,
        Bucket_delete sign b p w = (Ret None, w1)
        /\ (if Md5Check (Bucket_Config b)
            then Bucket_delete sign b ("/.md5/" +:+ p +:+ ".md5") w1 = (Ret None, w2)
            else w2 = w1)
        /\ w' = logged w2 (p +:+ " deleted from " +:+ Bucket_Name b +:+ newline).
Proof.
  unfold Bucket_Delete, bind, logged. split.
  - destruct (Bucket_delete sign b p w) as [[[e|]|m] w1]; try discriminate.
    destruct (Md5Check (Bucket_Config b)).
    + destruct (Bucket_delete sign b (Delete_md5Key p) w1) as [[[e|]|m] w2] eqn:Hd;
        try discriminate.
      intros [= <-]. exists w1, w2. auto.
    + intros [= <-]. exists w1, w1. auto.
  - intros (w1 & w2 & Hd & Hm & ->). rewrite Hd.
    destruct (Md5Check (Bucket_Config b)).
    + unfold Delete_md5Key. rewrite Hm. reflexivity.
    + subst w2. reflexivity.
Qed.

(** X7. [Delete] returns an error exactly when the delete of the object
    returned it, or, with Md5Check, when the object was deleted and the
    delete of its md5 file returned it.  The world is the one the failing
    delete left: nothing more is dispatched and nothing is logged. *)
Theorem Delete_error_iff `{Elsewhere} {T : Type} `{!S3ConfigSource T}
    (sign : signer T -> M Request) (b : Bucket T) (p : string) (w w' : World) (e : GoError) :
  Bucket_Delete sign b p w = (Ret (Some e), w')
  <-> Bucket_delete sign b p w = (Ret (Some e), w')
      \/ (Md5Check (Bucket_Config b) = true
          /\ exists w1,
               Bucket_delete sign b p w = (Ret None, w1)
               /\ Bucket_delete sign b ("/.md5/" +:+ p +:+ ".md5") w1 = (Ret (Some e), w')).
Proof.
  unfold Bucket_Delete, bind. split.
  - destruct (Bucket_delete sign b p w) as [[[e1|]|m] w1]; try discriminate.
    + intros [= <- <-]. left. reflexivity.
    + destruct (Md5Check (Bucket_Config b)); [|discriminate].
      destruct (Bucket_delete sign b (Delete_md5Key p) w1) as [[[e2|]|m] w2] eqn:Hd;
        try discriminate.
      intros [= <- <-]. right. split; [reflexivity|]. exists w1. auto.
  - intros [Hd|(Hm & w1 & Hd & Hd2)].
    + rewrite Hd. reflexivity.
    + rewrite Hd, Hm. unfold Delete_md5Key. rewrite Hd2. reflexivity.
Qed.

(** ** Sidecar keys *)

Lemma append_last (s : string) (c : ascii) (t : string) :
  last (strings.bytes (s +:+ String c t)) = last (c :: strings.bytes t).
Proof.
  rewrite bytes_append. simpl. rewrite last_app. simpl.
  destruct (last (c :: strings.bytes t)) eqn:E; [reflexivity|].
  rewrite last_cons in E. destruct (last (strings.bytes t)); discriminate.
Qed.

Lemma bytes_inj s t : strings.bytes s = strings.bytes t -> s = t.
Proof. intros E. rewrite <- (of_bytes_bytes s), <- (of_bytes_bytes t), E. reflexivity. Qed.

Lemma append_inj_r (s t u : string) : s +:+ u = t +:+ u -> s = t.
Proof.
  intros E. apply bytes_inj. apply (f_equal strings.bytes) in E.
  rewrite !bytes_append in E. by apply app_inv_tail in E.
Qed.

(** The key [DeleteMultiple] makes is never the md5 key of any key, and
    both ways of making keys are injective. *)
Lemma md5Key_never_shared (k k' : string) :
  DeleteMultiple_md5Key k' ≠ Delete_md5Key k
  /\ (Delete_md5Key k = Delete_md5Key k' -> k = k')
  /\ (DeleteMultiple_md5Key k = DeleteMultiple_md5Key k' -> k = k').
Proof.
  unfold Delete_md5Key, DeleteMultiple_md5Key. split; [|split].
  - intros E. apply (inj (String.append "/.md5/")) in E.
    apply (f_equal (fun s => last (strings.bytes s))) in E.
    rewrite !append_last in E. vm_compute in E. discriminate.
  - intros E. apply (inj (String.append "/.md5/")) in E. by apply append_inj_r in E.
  - intros E. apply (inj (String.append "/.md5/")) in E. by apply append_inj_r in E.
Qed.

(** X8. The batch [DeleteMultiple] hands on holds every key it was given,
    and twice as many keys with Md5Check; a key of the form /.md5/k.md5,
    the one [Delete] and the documentation use for the md5 file of k, is
    in the batch only if the caller listed it. *)
Theorem DeleteMultiple_misses_sidecars `{Elsewhere} {T : Type} `{!S3ConfigSource T}
    (b : Bucket T) (quiet : bool) (keys : list string) :
  exists batch,
    (forall (DeleteResult : Type)
            (deleteMultiple : Bucket T -> bool -> list string -> M (DeleteResult * error)),
        Bucket_DeleteMultiple deleteMultiple b quiet keys = deleteMultiple b quiet batch)
    /\ (forall k, Delete_md5Key k ∈ batch -> Delete_md5Key k ∈ keys)
    /\ (forall k, k ∈ keys -> k ∈ batch)
    /\ length batch = (if Md5Check (Bucket_Config b) then 2 * length keys else length keys)%nat.
Proof.
  unfold Bucket_DeleteMultiple.
  destruct (Md5Check (Bucket_Config b)).
  - exists (keys ++ (DeleteMultiple_md5Key <$> keys)). split; [reflexivity|].
    split; [|split].
    + intros k Hin. apply elem_of_app in Hin as [Hin|Hin]; [exact Hin|].
      apply list_elem_of_fmap in Hin as (k' & E & _).
      symmetry in E. by apply md5Key_never_shared in E.
    + intros k Hin. apply elem_of_app. by left.
    + rewrite length_app, length_fmap. lia.
  - exists keys. split; [reflexivity|]. auto.
Qed.

(** ** The path of a url is in normal form *)

Lemma Split_elems_no_sep (s : string) (sep : ascii) (x : string) :
  x ∈ strings.Split s sep -> sep ∉ strings.bytes x.
Proof.
  revert x. induction s as [|c s IH]; simpl; intros x Hin.
  - apply list_elem_of_singleton in Hin as ->. apply not_elem_of_nil.
  - destruct (decide (c = sep)) as [->|Hne].
    + apply elem_of_cons in Hin as [->|Hin]; [apply not_elem_of_nil|by apply IH].
    + pose proof (Split_not_nil s sep) as Hnn.
      destruct (strings.Split s sep) as [|y ys]; [congruence|].
      apply elem_of_cons in Hin as [->|Hin].
      * simpl. intros Hin. apply elem_of_cons in Hin as [->|Hin]; [congruence|].
        revert Hin. apply IH. by left.
      * apply IH. by right.
Qed.

Lemma step_rooted_clean (e : string) (out : list string) :
  "/"%char ∉ strings.bytes e ->
  Forall clean_elem out ->
  exists out', path.step true (out, 0%nat) e = (out', 0%nat) /\ Forall clean_elem out'.
Proof.
  intros He Hout. unfold path.step.
  destruct (decide (e = "")); [eauto|].
  destruct (decide (e = ".")); [eauto|].
  destruct (decide (e = "..")).
  - destruct (bool_decide (0 < length out)%nat); [|eauto].
    eexists. split; [reflexivity|]. destruct out; [constructor|]. simpl.
    by apply Forall_cons in Hout as [_ ?].
  - eexists. split; [reflexivity|]. constructor; [|exact Hout]. repeat split; assumption.
Qed.

Lemma step_rooted_invariant (elems : list string) (out : list string) :
  Forall (fun e => "/"%char ∉ strings.bytes e) elems ->
  Forall clean_elem out ->
  exists out', fold_left (path.step true) elems (out, 0%nat) = (out', 0%nat)
               /\ Forall clean_elem out'.
Proof.
  revert out. induction elems as [|e elems IH]; intros out He Hout.
  - exists out. auto.
  - apply Forall_cons in He as [He Hes].
    destruct (step_rooted_clean e out He Hout) as (out1 & Hs & Hout1).
    cbn [fold_left]. rewrite Hs. by apply IH.
Qed.

Lemma Clean_rooted_normal (p : string) :
  exists elems, path.Clean (String "/" p) = "/" +:+ strings.Join elems "/"
                /\ Forall clean_elem elems.
Proof.
  unfold path.Clean.
  rewrite bool_decide_eq_true_2 by reflexivity.
  destruct (step_rooted_invariant (strings.Split (String "/" p) "/") [])
    as (out & Hf & Hout).
  { apply Forall_forall. intros x Hx. by apply Split_elems_no_sep in Hx. }
  { constructor. }
  rewrite Hf. exists (rev out). split; [reflexivity|]. by apply Forall_rev.
Qed.

(** X9. The path of every url that is built is rooted and in normal
    form: a slash followed by elements separated by single slashes, none
    of them empty, [.] or [..]. *)
Theorem url_path_normal `{Elsewhere} {T : Type} `{!S3ConfigSource T}
    (b : Bucket T) (bPath : string) (u : url.URL) :
  Bucket_url b bPath = inl u ->
  exists elems, url.Path u = "/" +:+ strings.Join elems "/" /\ Forall clean_elem elems.
Proof.
  unfold Bucket_url. destruct (url_Parse bPath) as [purl|e]; [|discriminate].
  destruct (bool_decide _);
    destruct (strings.Contains (Bucket_Name b) "." || PathStyle (Bucket_Config b));
    intros [= <-]; simpl; apply Clean_rooted_normal.
Qed.

(** ** Keys that the url does not tell apart *)

Lemma Split_snoc_sep (s : string) (sep : ascii) :
  strings.Split (s +:+ String sep "") sep = strings.Split s sep ++ [""].
Proof.
  induction s as [|c s IH].
  - simpl. rewrite decide_True by reflexivity. reflexivity.
  - change (String c s +:+ String sep "") with (String c (s +:+ String sep "")).
    simpl. rewrite IH. destruct (decide (c = sep)); [reflexivity|].
    pose proof (Split_not_nil s sep) as Hnn.
    destruct (strings.Split s sep); [congruence|reflexivity].
Qed.

Lemma step_empty rooted st : path.step rooted st "" = st.
Proof. destruct st. reflexivity. Qed.

Lemma Clean_trailing_slash (p : string) :
  p ≠ "" -> path.Clean (p +:+ "/") = path.Clean p.
Proof.
  intros Hne. destruct p as [|c p]; [congruence|].
  change (String c p +:+ "/") with (String c (p +:+ "/")).
  unfold path.Clean.
  change (String c (p +:+ "/")) with (String c p +:+ String "/" "").
  rewrite Split_snoc_sep, fold_left_app. simpl fold_left at 1.
  rewrite step_empty. reflexivity.
Qed.

Lemma append_assoc (a b c : string) : (a +:+ b) +:+ c = a +:+ (b +:+ c).
Proof.
  induction a as [|x a IH]; [reflexivity|].
  change ((String x a +:+ b) +:+ c) with (String x ((a +:+ b) +:+ c)).
  rewrite IH. reflexivity.
Qed.

(** X11. A key and the same key followed by a slash get the same url
    (when neither carries a version). *)
Theorem url_trailing_slash `{Elsewhere} {T : Type} `{!S3ConfigSource T}
    (b : Bucket T) (key : string) (purl purl' : url.URL) :
  url_Parse key = inl purl ->
  url_Parse (key +:+ "/") = inl purl' ->
  url.Get (URL_Query purl) versionParam = "" ->
  url.Get (URL_Query purl') versionParam = "" ->
  Bucket_url b (key +:+ "/") = Bucket_url b key.
Proof.
  intros Hp Hp' Hv Hv'. unfold Bucket_url. rewrite Hp, Hp', Hv, Hv'.
  rewrite bool_decide_eq_false_2 by (intros Hn; by apply Hn).
  cbv beta iota zeta.
  assert (H1 : path.Clean ("/" +:+ Bucket_Name b +:+ "/" +:+ key +:+ "/")
               = path.Clean ("/" +:+ Bucket_Name b +:+ "/" +:+ key)).
  { rewrite <- !append_assoc. apply Clean_trailing_slash. discriminate. }
  assert (H2 : path.Clean ("/" +:+ key +:+ "/") = path.Clean ("/" +:+ key)).
  { rewrite <- !append_assoc. apply Clean_trailing_slash. discriminate. }
  rewrite H1, H2. reflexivity.
Qed.

(** ** The host of a virtual-host url *)

Lemma Clean_no_slash (s : string) :
  "/"%char ∉ strings.bytes s -> s ≠ "" -> path.Clean s = s.
Proof.
  intros Hns Hne. unfold path.Clean. destruct s as [|c t] eqn:Es; [congruence|].
  rewrite <- Es in *. rewrite (Split_no_sep s "/" Hns).
  assert (Hc : c ≠ "/"%char).
  { intros ->. apply Hns. rewrite Es. simpl. by left. }
  rewrite (bool_decide_eq_false_2 _ Hc). simpl. unfold path.step.
  rewrite (decide_False (P := s = "")) by exact Hne.
  destruct (decide (s = ".")) as [->|Hd]; [reflexivity|].
  destruct (decide (s = "..")) as [->|Hdd]; reflexivity.
Qed.

(** X12. A bucket of [S3.Bucket] whose name has neither period nor slash,
    on an endpoint whose domain has no slash, is addressed in virtual-host
    style over https: the host is the name, a dot and the domain, the
    domain being s3.amazonaws.com for an endpoint made with an empty
    one. *)
Theorem default_bucket_url `{Elsewhere} (domain name bPath : string) (k : loc)
    (purl : url.URL) :
  url_Parse bPath = inl purl ->
  "."%char ∉ strings.bytes name ->
  "/"%char ∉ strings.bytes name ->
  "/"%char ∉ strings.bytes domain ->
  exists u,
    Bucket_url (S3_Bucket (New domain k) name) bPath = inl u
    /\ url.Scheme u = "https"
    /\ url.Host u = name +:+ "." +:+ (if bool_decide (domain = "") then "s3.amazonaws.com" else domain)
    /\ url.Path u = path.Clean ("/" +:+ key_of bPath purl).
Proof.
  intros Hp Hdot Hslash Hdom.
  unfold Bucket_url, key_of. rewrite Hp.
  assert (Hc : strings.Contains name "." = false).
  { destruct (strings.Contains name ".") eqn:E; [|reflexivity].
    apply Contains_byte in E. contradiction. }
  assert (Hh : path.Clean (name +:+ "." +:+
                 (if bool_decide (domain = "") then "s3.amazonaws.com" else domain))
               = name +:+ "." +:+
                 (if bool_decide (domain = "") then "s3.amazonaws.com" else domain)).
  { apply Clean_no_slash.
    - rewrite !bytes_append. intros Hin.
      apply elem_of_app in Hin as [Hin|Hin]; [contradiction|].
      apply elem_of_app in Hin as [Hin|Hin].
      + apply list_elem_of_singleton in Hin. discriminate.
      + destruct (bool_decide (domain = "")); [|contradiction].
        revert Hin. rewrite <- Contains_byte. discriminate.
    - destruct name; discriminate. }
  destruct (bool_decide (url.Get (URL_Query purl) versionParam ≠ ""));
    cbn [S3_Bucket NewBucket fst Bucket_Name Bucket_Config Bucket_S3 DefaultConfig PathStyle Scheme];
    rewrite Hc; cbn [orb];
    eexists; (split; [reflexivity|]); cbn [url.Scheme url.Host url.Path];
    (split; [reflexivity|]); (split; [exact Hh|reflexivity]).
Qed.

(** ** The query of a url *)

(** X14. The query of a url that is built is empty or the one pair
    versionId=v with v escaped and not empty; it is made of unreserved
    bytes, [+], [%] and [=] only, so it never holds a second pair. *)
Theorem url_query_single `{Elsewhere} {T : Type} `{!S3ConfigSource T}
    (b : Bucket T) (bPath : string) (u : url.URL) :
  Bucket_url b bPath = inl u ->
  (url.RawQuery u = ""
   \/ exists v, v ≠ "" /\ url.RawQuery u = "versionId=" +:+ url.QueryEscape v)
  /\ (forall c, c ∈ strings.bytes (url.RawQuery u) ->
                url.escaped_byte c = true \/ c = "="%char)
  /\ "&"%char ∉ strings.bytes (url.RawQuery u).
Proof.
  intros Hu.
  assert (Hq : url.RawQuery u = ""
               \/ exists v, v ≠ "" /\ url.RawQuery u = "versionId=" +:+ url.QueryEscape v).
  { unfold Bucket_url in Hu. destruct (url_Parse bPath) as [purl|e]; [|discriminate].
    destruct (decide (url.Get (URL_Query purl) versionParam = "")) as [E|N].
    - rewrite bool_decide_eq_false_2 in Hu by (intros Hn; by apply Hn).
      left. destruct (_ || _); injection Hu as <-; reflexivity.
    - rewrite (bool_decide_eq_true_2 _ N) in Hu.
      right. exists (url.Get (URL_Query purl) versionParam). split; [exact N|].
      destruct (_ || _); injection Hu as <-; simpl; apply (Encode_single versionParam). }
  assert (Hb : forall c, c ∈ strings.bytes (url.RawQuery u) ->
                         url.escaped_byte c = true \/ c = "="%char).
  { intros c Hin. destruct Hq as [E|(v & _ & E)]; rewrite E in Hin.
    - by apply not_elem_of_nil in Hin.
    - rewrite bytes_append in Hin. apply elem_of_app in Hin as [Hin|Hin].
      + assert (Hall : forallb (fun x => url.escaped_byte x || bool_decide (x = "="%char))
                         (strings.bytes "versionId=") = true) by reflexivity.
        rewrite forallb_forall in Hall. apply list_elem_of_In in Hin.
        specialize (Hall _ Hin). apply orb_prop in Hall as [Hall|Hall]; [by left|right].
        by apply bool_decide_eq_true_1 in Hall.
      + left. pose proof (QueryEscape_bytes v) as Hall.
        rewrite forallb_forall in Hall. apply Hall. by apply list_elem_of_In. }
  split; [exact Hq|]. split; [exact Hb|].
  intros Hin. apply Hb in Hin as [Hin|Hin]; discriminate.
Qed.

(** X15. Where queries are decoded as [url.ParseQuery] does, the query
    of the url built for a path decodes to the version of that path, and
    to nothing else: the empty map without a version, the one entry
    versionId otherwise. *)
Theorem url_query_roundtrip `{Elsewhere} {T : Type} `{!S3ConfigSource T}
    (b : Bucket T) (bPath : string) (purl : url.URL) :
  (forall u, URL_Query u = plain.Query u) ->
  url_Parse bPath = inl purl ->
  exists u,
    Bucket_url b bPath = inl u
    /\ URL_Query u = (if bool_decide (url.Get (URL_Query purl) versionParam = "")
                      then ∅ else {[ "versionId" := [url.Get (URL_Query purl) versionParam] ]})
    /\ url.Get (URL_Query u) versionParam = url.Get (URL_Query purl) versionParam.
Proof.
  intros HQ Hp. unfold Bucket_url. rewrite Hp.
  assert (Hs : forall v, url.Add ∅ versionParam v = {[ "versionId" := [v] ]}).
  { intros v. unfold url.Add. rewrite lookup_empty. simpl. apply insert_empty. }
  destruct (decide (url.Get (URL_Query purl) versionParam = "")) as [E|N].
  - rewrite (bool_decide_eq_true_2 _ E).
    rewrite bool_decide_eq_false_2 by (intros Hn; by apply Hn).
    destruct (_ || _); eexists; (split; [reflexivity|]); rewrite HQ, E; split; reflexivity.
  - rewrite (bool_decide_eq_false_2 _ N), (bool_decide_eq_true_2 _ N).
    destruct (_ || _); eexists; (split; [reflexivity|]); rewrite HQ;
      (rewrite (Query_Encode_versionId _ (url.Get (URL_Query purl) versionParam))
         by (simpl; rewrite Hs; reflexivity));
      (split; [reflexivity|]); unfold url.Get, versionParam;
      rewrite lookup_singleton_eq; reflexivity.
Qed.

(** ** Signing and the User-Agent of the caller *)

(** X16. [Sign] does not see the User-Agent of the caller: a request
    with any User-Agent values and the same request without them are
    signed alike, and so are a request with a nil header and one with an
    empty header. *)
Theorem Sign_forgets_User_Agent `{Elsewhere} {T : Type} `{!S3ConfigSource T}
    (sign : signer T -> M Request) (b : Bucket T) (req : Request) (h : http.Header)
    (ua : list string) :
  Bucket_Sign sign b (with_Header req (Some (<["User-Agent" := ua]> h)))
  = Bucket_Sign sign b (with_Header req (Some h))
  /\ Bucket_Sign sign b (with_Header req None) = Bucket_Sign sign b (with_Header req (Some ∅)).
Proof.
  unfold Bucket_Sign. simpl. rewrite !Set_User_Agent, insert_insert_eq.
  split; reflexivity.
Qed.

(** ** Buckets on the accelerated endpoint *)

(** X13. A bucket of [BucketWithDefaultConfig] whose name has no slash
    is addressed over https, in virtual-host style under
    s3-accelerate.amazonaws.com when the name has no period, and in path
    style on s3-accelerate.amazonaws.com itself when it has one. *)
Theorem accelerated_bucket_url `{Elsewhere} (a : S3Accelerated) (name bPath : string)
    (purl : url.URL) :
  url_Parse bPath = inl purl ->
  "/"%char ∉ strings.bytes name ->
  exists u,
    Bucket_url (S3Accelerated_BucketWithDefaultConfig a name) bPath = inl u
    /\ url.Scheme u = "https"
    /\ ("."%char ∉ strings.bytes name ->
          url.Host u = name +:+ ".s3-accelerate.amazonaws.com"
          /\ url.Path u = path.Clean ("/" +:+ key_of bPath purl))
    /\ ("."%char ∈ strings.bytes name ->
          url.Host u = "s3-accelerate.amazonaws.com"
          /\ url.Path u = path.Clean ("/" +:+ name +:+ "/" +:+ key_of bPath purl)).
Proof.
  intros Hp Hslash.
  unfold Bucket_url, key_of. rewrite Hp.
  assert (Hh : path.Clean (name +:+ "." +:+ "s3-accelerate.amazonaws.com")
               = name +:+ ".s3-accelerate.amazonaws.com").
  { apply Clean_no_slash.
    - rewrite bytes_append. intros Hin.
      apply elem_of_app in Hin as [Hin|Hin]; [contradiction|].
      revert Hin. rewrite <- Contains_byte. discriminate.
    - destruct name; discriminate. }
  destruct (bool_decide (url.Get (URL_Query purl) versionParam ≠ ""));
    cbn [S3Accelerated_BucketWithDefaultConfig NewBucket fst Bucket_Name Bucket_Config
         Bucket_S3 PathStyle Scheme];
    (destruct (strings.Contains name ".") eqn:Hc;
     [ apply Contains_byte in Hc
     | assert (Hn : "."%char ∉ strings.bytes name)
         by (rewrite <- Contains_byte, Hc; discriminate) ]);
    cbn [orb]; eexists; (split; [reflexivity|]);
    cbn [url.Scheme url.Host url.Path];
    (split; [reflexivity|]); split; intros Hd; try contradiction;
    (split; [first [exact Hh | reflexivity] | reflexivity]).
Qed.

(** ** Keys that reach the url as they are *)

Lemma Split_app_sep (x t : string) (sep : ascii) :
  sep ∉ strings.bytes x ->
  strings.Split (x +:+ String sep t) sep = x :: strings.Split t sep.
Proof.
  induction x as [|c x IH]; intros Hn.
  - simpl. rewrite decide_True by reflexivity. reflexivity.
  - change (String c x +:+ String sep t) with (String c (x +:+ String sep t)).
    simpl in *. apply not_elem_of_cons in Hn as [Hc Hn].
    rewrite decide_False by congruence. rewrite IH by exact Hn. reflexivity.
Qed.

Lemma Split_Join (elems : list string) :
  Forall clean_elem elems -> elems ≠ [] ->
  strings.Split (strings.Join elems "/") "/" = elems.
Proof.
  induction elems as [|x elems IH]; intros Hall Hne; [congruence|].
  apply Forall_cons in Hall as [(_ & _ & _ & Hx) Hall].
  destruct elems as [|y elems].
  - simpl. apply Split_no_sep. exact Hx.
  - change (strings.Join (x :: y :: elems) "/")
      with (x +:+ String "/" (strings.Join (y :: elems) "/")).
    rewrite Split_app_sep by exact Hx. rewrite IH by (auto; discriminate). reflexivity.
Qed.

Lemma fold_step_clean rooted (elems out : list string) (dotdot : nat) :
  Forall clean_elem elems ->
  fold_left (path.step rooted) elems (out, dotdot) = (rev elems ++ out, dotdot).
Proof.
  revert out. induction elems as [|e elems IH]; intros out Hall; [reflexivity|].
  apply Forall_cons in Hall as [(H1 & H2 & H3 & _) Hall].
  cbn [fold_left]. unfold path.step at 2.
  rewrite (decide_False (P := e = "")), (decide_False (P := e = ".")),
          (decide_False (P := e = "..")) by assumption.
  rewrite IH by exact Hall. simpl. rewrite <- app_assoc. reflexivity.
Qed.

Lemma Clean_normal_fixed (elems : list string) :
  Forall clean_elem elems ->
  path.Clean ("/" +:+ strings.Join elems "/") = "/" +:+ strings.Join elems "/".
Proof.
  intros Hall.
  change ("/" +:+ strings.Join elems "/") with (String "/" (strings.Join elems "/")).
  unfold path.Clean. rewrite bool_decide_eq_true_2 by reflexivity.
  cbn [strings.Split]. rewrite decide_True by reflexivity.
  cbn [fold_left]. rewrite step_empty.
  destruct elems as [|x elems]; [reflexivity|].
  rewrite Split_Join by (auto; discriminate).
  rewrite fold_step_clean by exact Hall.
  rewrite app_nil_r, rev_involutive. reflexivity.
Qed.

Lemma Join_cons (x : string) (elems : list string) :
  elems ≠ [] -> strings.Join (x :: elems) "/" = x +:+ "/" +:+ strings.Join elems "/".
Proof. destruct elems; [congruence|reflexivity]. Qed.

(** X10. A key made of elements in normal form, without a version,
    reaches the url as it is: the path is /key in virtual-host style, and
    /bucket/key in path style when the bucket name is itself such an
    element. *)
Theorem url_path_verbatim `{Elsewhere} {T : Type} `{!S3ConfigSource T}
    (b : Bucket T) (elems : list string) (purl : url.URL) :
  Forall clean_elem elems ->
  elems ≠ [] ->
  url_Parse (strings.Join elems "/") = inl purl ->
  url.Get (URL_Query purl) versionParam = "" ->
  exists u,
    Bucket_url b (strings.Join elems "/") = inl u
    /\ ("."%char ∉ strings.bytes (Bucket_Name b) -> PathStyle (Bucket_Config b) = false ->
          url.Path u = "/" +:+ strings.Join elems "/")
    /\ (clean_elem (Bucket_Name b) ->
        "."%char ∈ strings.bytes (Bucket_Name b) \/ PathStyle (Bucket_Config b) = true ->
          url.Path u = "/" +:+ Bucket_Name b +:+ "/" +:+ strings.Join elems "/").
Proof.
  intros Hall Hne Hp Hv. unfold Bucket_url. rewrite Hp, Hv.
  rewrite bool_decide_eq_false_2 by (intros Hn; by apply Hn).
  cbv beta iota zeta.
  assert (Hvirt : path.Clean ("/" +:+ strings.Join elems "/") = "/" +:+ strings.Join elems "/")
    by (apply Clean_normal_fixed; exact Hall).
  assert (Hpath : clean_elem (Bucket_Name b) ->
            path.Clean ("/" +:+ Bucket_Name b +:+ "/" +:+ strings.Join elems "/")
            = "/" +:+ Bucket_Name b +:+ "/" +:+ strings.Join elems "/").
  { intros Hname. rewrite <- Join_cons by exact Hne.
    apply Clean_normal_fixed. constructor; assumption. }
  destruct (strings.Contains (Bucket_Name b) ".") eqn:Hc;
    [ apply Contains_byte in Hc
    | assert (Hn : "."%char ∉ strings.bytes (Bucket_Name b))
        by (rewrite <- Contains_byte, Hc; discriminate) ];
    (destruct (PathStyle (Bucket_Config b)) eqn:Hps; cbn [orb]);
    eexists; (split; [reflexivity|]); cbn [url.Path]; split.
  - intros Hnd _. contradiction.
  - intros Hname _. exact (Hpath Hname).
  - intros Hnd _. contradiction.
  - intros Hname _. exact (Hpath Hname).
  - intros _ Hf. discriminate.
  - intros Hname _. exact (Hpath Hname).
  - intros _ _. exact Hvirt.
  - intros _ [Hd|Hf]; [contradiction|discriminate].
Qed.

Section MoreExamples.
Import plain.

Lemma parse_error_propagates_witness :
  Bucket_Delete (signer_sign signature) (S3_Bucket (New "" 1%positive) "bucket")
    (String "a" (String "001" "")) world0
  = (Ret (Some (urlError "parse" (String "a" (String "001" ""))
                  "net/url: invalid control character in URL")), world0).
Proof.
  apply (parse_error_propagates (signer_sign signature)
           (newGetter (signer_sign signature)) newPutter
           (S3_Bucket (New "" 1%positive) "bucket") (String "a" (String "001" "")) None);
    [vm_compute; reflexivity | discriminate].
Defined.

Lemma url_path_normal_witness :
  exists elems,
    "/a/c" = "/" +:+ strings.Join elems "/" /\ Forall clean_elem elems.
Proof.
  assert (Hu : Bucket_url (S3_Bucket (New "" 1%positive) "bucket") "a//b/../c/"
               = inl (url.mkURL "https" "" "bucket.s3.amazonaws.com" "/a/c" "" false "" ""))
    by (vm_compute; reflexivity).
  exact (url_path_normal _ _ _ Hu).
Defined.

Lemma url_trailing_slash_witness :
  Bucket_url (S3_Bucket (New "" 1%positive) "bucket") "dir/"
  = Bucket_url (S3_Bucket (New "" 1%positive) "bucket") "dir".
Proof.
  assert (H1 : url_Parse "dir" = inl (url.mkURL "" "" "" "dir" "" false "" ""))
    by (vm_compute; reflexivity).
  assert (H2 : url_Parse "dir/" = inl (url.mkURL "" "" "" "dir/" "" false "" ""))
    by (vm_compute; reflexivity).
  exact (url_trailing_slash (S3_Bucket (New "" 1%positive) "bucket") "dir" _ _ H1 H2
           eq_refl eq_refl).
Defined.

Lemma default_bucket_url_witness :
  exists u,
    Bucket_url (S3_Bucket (New "" 1%positive) "bucket") "dir/key" = inl u
    /\ url.Scheme u = "https"
    /\ url.Host u = "bucket.s3.amazonaws.com".
Proof.
  edestruct (default_bucket_url "" "bucket" "dir/key" 1%positive) as (u & Hu & Hs & Hh & _);
    [vm_compute; reflexivity | rewrite <- Contains_byte; discriminate
     | rewrite <- Contains_byte; discriminate | apply not_elem_of_nil |].
  exists u. auto.
Defined.

Lemma accelerated_bucket_url_witness :
  exists u,
    Bucket_url (S3Accelerated_BucketWithDefaultConfig (NewAcceleratedS3 1%positive).1 "my.bucket")
      "dir/key" = inl u
    /\ url.Host u = "s3-accelerate.amazonaws.com"
    /\ url.Path u = "/my.bucket/dir/key".
Proof.
  edestruct (accelerated_bucket_url (NewAcceleratedS3 1%positive).1 "my.bucket" "dir/key")
    as (u & Hu & _ & _ & Hdot);
    [vm_compute; reflexivity | rewrite <- Contains_byte; discriminate |].
  exists u. split; [exact Hu|].
  destruct Hdot as [Hh Hp]; [apply Contains_byte; reflexivity|].
  split; [exact Hh|]. rewrite Hp. vm_compute. reflexivity.
Defined.

Lemma url_query_single_witness :
  "&"%char ∉ strings.bytes "versionId=a%26b".
Proof.
  assert (Hu : Bucket_url (S3_Bucket (New "" 1%positive) "bucket") "key?versionId=a%26b&x=1"
               = inl (url.mkURL "https" "" "bucket.s3.amazonaws.com" "/key" "" false
                        "versionId=a%26b" ""))
    by (vm_compute; reflexivity).
  exact (proj2 (proj2 (url_query_single _ _ _ Hu))).
Defined.

Lemma url_query_roundtrip_witness :
  exists u,
    Bucket_url (S3_Bucket (New "" 1%positive) "bucket") "key?x=1&versionId=a%26b" = inl u
    /\ url.Get (URL_Query u) versionParam = "a&b".
Proof.
  edestruct (url_query_roundtrip (S3_Bucket (New "" 1%positive) "bucket")
               "key?x=1&versionId=a%26b") as (u & Hu & _ & Hg);
    [intros; reflexivity | vm_compute; reflexivity |].
  exists u. split; [exact Hu|]. rewrite Hg. vm_compute. reflexivity.
Defined.

Lemma url_path_verbatim_witness :
  exists u,
    Bucket_url (S3_Bucket (New "" 1%positive) "bucket") "dir/key.txt" = inl u
    /\ url.Path u = "/dir/key.txt".
Proof.
  edestruct (url_path_verbatim (S3_Bucket (New "" 1%positive) "bucket") ["dir"; "key.txt"])
    as (u & Hu & Hv & _);
    [ repeat constructor; try discriminate; rewrite <- Contains_byte; discriminate
    | discriminate | vm_compute; reflexivity | reflexivity | ].
  exists u. split; [exact Hu|].
  apply Hv; [rewrite <- Contains_byte; discriminate | reflexivity].
Defined.

End MoreExamples.
